(** * scorecard-action: the sign-and-publish workflow

    A shallow embedding of [signing/signing.go] and [main.go].

    Go strings and byte slices are sequences of bytes; both are modelled by
    [string] (a list of 8-bit [ascii] characters).  The process environment
    is a finite map from variable names to values, the file system a finite
    map from paths to contents.

    The calls that leave the repository are of two kinds.  The scan engine,
    the signer, the URL parser, the request constructor and the HTTP
    transport are parameters of the development ([Externals]), as are the
    names of the environment variables ([Options]).  The parts of Go's
    library whose result a property depends on are written out:
    [os.Getenv] and [os.Setenv] (Unix), [utf8.DecodeRuneInString] and the
    string and struct encoding of [encoding/json].  Every call the workflow
    makes to the outside is recorded, with its result, in a trace. *)

From Stdlib Require Import ZArith NArith Ascii String List Bool Lia.
From stdpp Require Import base option gmap strings list fin_maps pretty.

Local Open Scope string_scope.

(** ** Go errors *)

(** An error is either a leaf ([errors.New], or [fmt.Errorf] with [%v] verbs
    only) or wraps another error ([fmt.Errorf] with a [%w] verb); in both
    cases it carries its complete message. *)
Inductive error : Type :=
| errorString (msg : string)
| wrapError (msg : string) (err : error).

(** [err.Error()] *)
Definition Error (e : error) : string :=
  match e with
  | errorString msg => msg
  | wrapError msg _ => msg
  end.

(** [errors.Unwrap(err)] *)
Definition Unwrap (e : error) : option error :=
  match e with
  | errorString _ => None
  | wrapError _ err => Some err
  end.

(** [fmt.Errorf(ctx + ": %w", err)]: every wrapping call of the package has
    this shape. *)
Definition Errorf_w (ctx : string) (err : error) : error :=
  wrapError (ctx ++ ": " ++ Error err) err.

(** ** Strings *)

(** [strings.HasPrefix(s, prefix)] *)
Fixpoint HasPrefix (s prefix : string) : bool :=
  match prefix, s with
  | EmptyString, _ => true
  | String _ _, EmptyString => false
  | String c p, String d s' => if Ascii.eqb c d then HasPrefix s' p else false
  end.

(** [strings.Contains(s, substr)] *)
Fixpoint Contains (s substr : string) : bool :=
  HasPrefix s substr ||
  match s with
  | EmptyString => false
  | String _ s' => Contains s' substr
  end.

(** [strings.IndexByte(s, c) >= 0] *)
Fixpoint ContainsByte (s : string) (c : ascii) : bool :=
  match s with
  | EmptyString => false
  | String d s' => Ascii.eqb c d || ContainsByte s' c
  end.

(** ** The process environment ([os.Getenv], [os.Setenv] on Unix) *)

Abbreviation Env := (gmap string string).
Abbreviation Files := (gmap string string).

Definition NUL : ascii := Ascii.zero.

(** The key test of [syscall.Setenv]: not empty, no ['='], no NUL byte. *)
Definition valid_key (key : string) : bool :=
  negb (String.eqb key "") && negb (ContainsByte key "=") && negb (ContainsByte key NUL).

(** The value test of [syscall.Setenv]: no NUL byte. *)
Definition valid_value (value : string) : bool :=
  negb (ContainsByte value NUL).

Definition EINVAL : error := errorString "setenv: invalid argument".

(** [os.LookupEnv(key)] *)
Definition LookupEnv (key : string) (e : Env) : option string :=
  if String.eqb key "" then None else e !! key.

(** [os.Getenv(key)]: the value, or the empty string when the variable is
    not present. *)
Definition Getenv (key : string) (e : Env) : string :=
  default "" (LookupEnv key e).

(** [os.Setenv(key, value)]: the new environment and the error, if any. *)
Definition Setenv (key value : string) (e : Env) : Env * option error :=
  if valid_key key && valid_value value
  then (<[key := value]> e, None)
  else (e, Some EINVAL).

(** An environment as the operating system hands it to the process. *)
Definition env_wf (e : Env) : Prop :=
  forall k v, e !! k = Some v -> valid_key k = true /\ valid_value v = true.

(** ** HTTP requests and responses *)

Record Request : Type := mkRequest {
  Method : string;
  URL : string;
  Header : list (string * string);
  ReqBody : string;
  (** the timeout of the request's context, in nanoseconds, when it has one *)
  Timeout : option Z;
}.

(** What [io.ReadAll(resp.Body)] yields: the bytes read and the error that
    ended the reading, if it was not the end of the stream. *)
Record Response : Type := mkResponse {
  StatusCode : Z;
  Status : string;
  Body : string * option error;
}.

(** ** The world *)

Record Sys : Type := mkSys {
  env : Env;
  fs : Files;
}.

(** One entry per call that leaves the package, with what it returned. *)
Inductive event : Type :=
| EvCliExecute (r : option error)
| EvGetenv (key value : string)
| EvSetenv (key value : string) (r : option error)
| EvRunExecute (r : option error)
| EvReadFile (path : string) (r : string + error)
| EvSignBlobCmd (file : string) (r : option error)
| EvClientDo (req : Request) (r : Response + error)
| EvReadAll (r : string * option error).

Record World : Type := mkWorld {
  sys : Sys;
  trace : list event;
}.

(** A computation of the process: it transforms the world and yields a
    value. *)
Definition M (A : Type) : Type := World -> World * A.

Definition ret {A} (a : A) : M A := fun w => (w, a).

Definition bind {A B} (m : M A) (k : A -> M B) : M B :=
  fun w => let '(w', a) := m w in k a w'.

Notation "x <- m ;; k" := (bind m (fun x => k))
  (at level 100, m at next level, right associativity).
Notation "m ;;; k" := (bind m (fun _ => k))
  (at level 100, right associativity).

(** [os.Getenv] as a step of the process *)
Definition os_Getenv (key : string) : M string :=
  fun w =>
    let v := Getenv key (env (sys w)) in
    (mkWorld (sys w) (trace w ++ [EvGetenv key v]), v).

(** [os.Setenv] as a step of the process *)
Definition os_Setenv (key value : string) : M (option error) :=
  fun w =>
    let '(e', r) := Setenv key value (env (sys w)) in
    (mkWorld (mkSys e' (fs (sys w))) (trace w ++ [EvSetenv key value r]), r).

Definition ENOENT (path : string) : error :=
  wrapError ("open " ++ path ++ ": no such file or directory")
            (errorString "no such file or directory").

(** [os.ReadFile(name)] *)
Definition os_ReadFile (name : string) : M (string + error) :=
  fun w =>
    let r := match fs (sys w) !! name with
             | Some data => inl data
             | None => inr (ENOENT name)
             end in
    (mkWorld (sys w) (trace w ++ [EvReadFile name r]), r).

(** ** What the package is given *)

(** The names of the environment variables, declared in package [options]. *)
Record Options : Type := mkOptions {
  EnvInputResultsFile : string;
  EnvInputResultsFormat : string;
  EnvInputPublishResults : string;
  EnvInputRepoToken : string;
  EnvInputInternalPublishBaseURL : string;
  EnvGithubRepository : string;
  EnvGithubRef : string;
}.

(** The collaborators outside the repository.
    - [cli_Execute_ext]: [cli.New().Execute()], the primary scan;
    - [run_Execute_ext]: [run.New().Execute()], the scan run again;
    - [SignBlobCmd_ext]: cosign's [sign.SignBlobCmd] on a payload path (its
      other arguments are constants of cosign's [options] package);
    - [url_Parse_ext]: [url.Parse(rawURL)] followed by [String()], the only
      use the package makes of the parsed URL;
    - [NewRequest_ext]: the validation [http.NewRequest] performs on the
      method and the URL;
    - [client_Do_ext]: the transport, [(&http.Client{}).Do(req)]. *)
Record Externals : Type := mkExternals {
  cli_Execute_ext : Sys -> Sys * option error;
  run_Execute_ext : Sys -> Sys * option error;
  SignBlobCmd_ext : string -> Sys -> Sys * option error;
  url_Parse_ext : string -> string + error;
  NewRequest_ext : string -> string -> option error;
  client_Do_ext : Request -> Sys -> Response + error;
}.

(** How the process ends: [main] returns, or [log.Fatalf] prints a line and
    exits with status 1. *)
Inductive exit : Type :=
| Done
| Fatal (line : string).

Section Workflow.

Context (options : Options) (ext : Externals).

(** [cli.New().Execute()] *)
Definition cli_Execute : M (option error) :=
  fun w =>
    let '(s', r) := cli_Execute_ext ext (sys w) in
    (mkWorld s' (trace w ++ [EvCliExecute r]), r).

(** [run.New().Execute()] *)
Definition run_Execute : M (option error) :=
  fun w =>
    let '(s', r) := run_Execute_ext ext (sys w) in
    (mkWorld s' (trace w ++ [EvRunExecute r]), r).

(** [sign.SignBlobCmd(rootOpts, keyOpts, regOpts, file, true, "", "")], the
    signature bytes discarded *)
Definition sign_SignBlobCmd (file : string) : M (option error) :=
  fun w =>
    let '(s', r) := SignBlobCmd_ext ext file (sys w) in
    (mkWorld s' (trace w ++ [EvSignBlobCmd file r]), r).

(** [client.Do(req)] *)
Definition client_Do (req : Request) : M (Response + error) :=
  fun w =>
    let r := client_Do_ext ext req (sys w) in
    (mkWorld (sys w) (trace w ++ [EvClientDo req r]), r).

(** [io.ReadAll(resp.Body)] *)
Definition io_ReadAll (resp : Response) : M (string * option error) :=
  fun w => (mkWorld (sys w) (trace w ++ [EvReadAll (Body resp)]), Body resp).

(** *** signing.go *)

Definition SignScorecardResult (scorecardResultsFile : string) : M (option error) :=
  err <- os_Setenv "COSIGN_EXPERIMENTAL" "true" ;;
  match err with
  | Some e => ret (Some (Errorf_w "error setting COSIGN_EXPERIMENTAL env var" e))
  | None =>
      err <- sign_SignBlobCmd scorecardResultsFile ;;
      match err with
      | Some e => ret (Some (Errorf_w "error signing payload" e))
      | None => ret None
      end
  end.

(** The body of [GetJSONScorecardResults] after its two [defer] statements. *)
Definition GetJSONScorecardResults_body : M (string + error) :=
  os_Setenv (EnvInputResultsFile options) "results.json" ;;;
  os_Setenv (EnvInputResultsFormat options) "json" ;;;
  err <- run_Execute ;;
  match err with
  | Some e => ret (inr (Errorf_w "error during command execution" e))
  | None =>
      name <- os_Getenv (EnvInputResultsFile options) ;;
      r <- os_ReadFile name ;;
      match r with
      | inr e => ret (inr (Errorf_w "reading scorecard json results from file" e))
      | inl jsonPayload => ret (inl jsonPayload)
      end
  end.

(** A [defer] statement evaluates the arguments of the deferred call when it
    is executed; the calls run when the function returns, last deferred
    first, and the errors they return are dropped. *)
Definition GetJSONScorecardResults : M (string + error) :=
  saved_file <- os_Getenv (EnvInputResultsFile options) ;;
  saved_format <- os_Getenv (EnvInputResultsFormat options) ;;
  r <- GetJSONScorecardResults_body ;;
  os_Setenv (EnvInputResultsFormat options) saved_format ;;;
  os_Setenv (EnvInputResultsFile options) saved_file ;;;
  ret r.

End Workflow.

(** ** UTF-8 ([unicode/utf8]) *)

Local Open Scope N_scope.

Definition RuneError : N := 0xFFFD.
Definition RuneSelf : N := 0x80.
Definition UTFMax : nat := 4.

(** [s[i]] as a number; the callers check the length first. *)
Definition byte_at (s : string) (i : nat) : N :=
  match String.get i s with
  | Some c => N_of_ascii c
  | None => 0
  end.

(** [s[:n]] and [s[n:]], clipped to the length of [s]. *)
Fixpoint slice_to (n : nat) (s : string) : string :=
  match n, s with
  | S n', String c s' => String c (slice_to n' s')
  | _, _ => EmptyString
  end.

Fixpoint slice_from (n : nat) (s : string) : string :=
  match n, s with
  | S n', String _ s' => slice_from n' s'
  | _, _ => s
  end.

(** A byte that is not ASCII. *)
Definition high (c : ascii) : Prop := 0x80 <= N_of_ascii c.

(** The table [first]: information about the first byte of an encoding.
    [0xF0] is ASCII, [0xF1] is an invalid first byte; otherwise the low three
    bits are the size and the high four bits index [acceptRanges]. *)
Definition first (b : N) : N :=
  if b <? 0x80 then 0xF0
  else if b <? 0xC2 then 0xF1
  else if b <? 0xE0 then 0x02
  else if b =? 0xE0 then 0x13
  else if b <? 0xED then 0x03
  else if b =? 0xED then 0x23
  else if b <? 0xF0 then 0x03
  else if b =? 0xF0 then 0x34
  else if b <? 0xF4 then 0x04
  else if b =? 0xF4 then 0x44
  else 0xF1.

(** The table [acceptRanges]: the range allowed for the second byte. *)
Definition acceptRanges (i : N) : N * N :=
  match i with
  | 0 => (0x80, 0xBF)
  | 1 => (0xA0, 0xBF)
  | 2 => (0x80, 0x9F)
  | 3 => (0x90, 0xBF)
  | 4 => (0x80, 0x8F)
  | _ => (0, 0)
  end.

(** [utf8.DecodeRuneInString(s)]: the rune and the number of bytes it
    takes; [(RuneError, 1)] on an invalid encoding. *)
Definition DecodeRuneInString (s : string) : N * nat :=
  let n := String.length s in
  if (n <? 1)%nat then (RuneError, 0%nat)
  else
    let s0 := byte_at s 0 in
    let x := first s0 in
    if 0xF0 <=? x then ((if x =? 0xF0 then s0 else RuneError), 1%nat)
    else
      let sz := N.to_nat (N.land x 7) in
      let '(lo, hi) := acceptRanges (N.shiftr x 4) in
      if (n <? sz)%nat then (RuneError, 1%nat)
      else
        let s1 := byte_at s 1 in
        if (s1 <? lo) || (hi <? s1) then (RuneError, 1%nat)
        else if (sz <=? 2)%nat
        then (N.lor (N.shiftl (N.land s0 0x1F) 6) (N.land s1 0x3F), 2%nat)
        else
          let s2 := byte_at s 2 in
          if (s2 <? 0x80) || (0xBF <? s2) then (RuneError, 1%nat)
          else if (sz <=? 3)%nat
          then (N.lor (N.lor (N.shiftl (N.land s0 0x0F) 12)
                             (N.shiftl (N.land s1 0x3F) 6))
                      (N.land s2 0x3F), 3%nat)
          else
            let s3 := byte_at s 3 in
            if (s3 <? 0x80) || (0xBF <? s3) then (RuneError, 1%nat)
            else (N.lor (N.lor (N.lor (N.shiftl (N.land s0 0x07) 18)
                                      (N.shiftl (N.land s1 0x3F) 12))
                               (N.shiftl (N.land s2 0x3F) 6))
                        (N.land s3 0x3F), 4%nat).

(** ** JSON encoding ([encoding/json]) *)

Definition dquote : ascii := ascii_of_N 34.
Definition backslash : ascii := ascii_of_N 92.

(** [hex[i]] for [hex = "0123456789abcdef"] *)
Definition hex (i : N) : ascii :=
  match String.get (N.to_nat i) "0123456789abcdef" with
  | Some c => c
  | None => Ascii.zero
  end.

(** The table [htmlSafeSet]: the ASCII characters that need no escape in a
    JSON string embedded in HTML. *)
Definition htmlSafeSet (b : N) : bool :=
  (0x20 <=? b) && (b <? 0x80) &&
  negb (b =? 0x22) && negb (b =? 0x5C) &&
  negb (b =? 0x26) && negb (b =? 0x3C) && negb (b =? 0x3E).

(** The escape [appendString] writes for an ASCII byte outside
    [htmlSafeSet].  (From Go 1.22 on, backspace and form feed have escapes of
    two characters; before, and here, they are written as [\u0008] and
    [\u000c], which denote the same bytes.) *)
Definition escape_ascii (c : ascii) : string :=
  let b := N_of_ascii c in
  if (b =? 0x5C) || (b =? 0x22) then String backslash (String c "")
  else if b =? 0x0A then String backslash "n"
  else if b =? 0x0D then String backslash "r"
  else if b =? 0x09 then String backslash "t"
  else String backslash
         (String "u" (String "0" (String "0"
            (String (hex (N.shiftr b 4)) (String (hex (N.land b 0xF)) ""))))).

(** The loop of [appendString(dst, src, escapeHTML = true)], on the part of
    [src] still to be written.  Every round consumes at least one byte, so
    [String.length src] rounds are enough. *)
Fixpoint appendString_loop (fuel : nat) (src : string) : string :=
  match fuel with
  | O => EmptyString
  | S fuel' =>
    match src with
    | EmptyString => EmptyString
    | String c rest =>
      let b := N_of_ascii c in
      if b <? RuneSelf then
        if htmlSafeSet b
        then String c (appendString_loop fuel' rest)
        else (escape_ascii c ++ appendString_loop fuel' rest)%string
      else
        let '(r, size) := DecodeRuneInString (slice_to UTFMax src) in
        if (r =? RuneError) && (size =? 1)%nat
        then (String backslash "ufffd"
              ++ appendString_loop fuel' (slice_from size src))%string
        else if (r =? 0x2028) || (r =? 0x2029)
        then (String backslash "u202" ++ String (hex (N.land r 0xF)) ""
              ++ appendString_loop fuel' (slice_from size src))%string
        else (slice_to size src
              ++ appendString_loop fuel' (slice_from size src))%string
    end
  end.

(** [appendString(nil, src, true)]: [src] as a JSON string literal. *)
Definition appendString (src : string) : string :=
  String dquote (appendString_loop (String.length src) src ++ String dquote "")%string.

Local Close Scope N_scope.

(** The anonymous struct of [ProcessSignature], with its field tags. *)
Record resultsPayload : Type := mkResultsPayload {
  Result : string;       (* `json:"result"` *)
  Branch : string;       (* `json:"branch"` *)
  AccessToken : string;  (* `json:"accessToken"` *)
}.

(** [json.Marshal(resultsPayload)]: a struct is written as an object, one
    member per exported field in declaration order, named by the tag.  The
    encoding of a struct of strings has no failing case. *)
Definition json_Marshal (v : resultsPayload) : string + error :=
  inl ("{" ++ appendString "result" ++ ":" ++ appendString (Result v)
       ++ "," ++ appendString "branch" ++ ":" ++ appendString (Branch v)
       ++ "," ++ appendString "accessToken" ++ ":" ++ appendString (AccessToken v)
       ++ "}").

(** ** Reading JSON back (RFC 8259), for objects whose members are strings *)

Local Open Scope N_scope.

(** [utf8.EncodeRune]: the UTF-8 encoding of a rune; surrogates and values
    above [0x10FFFF] are written as [RuneError]. *)
Definition EncodeRune (r : N) : string :=
  let byte n := ascii_of_N n in
  if r <=? 0x7F then String (byte r) ""
  else if r <=? 0x7FF then
    String (byte (N.lor 0xC0 (N.shiftr r 6)))
      (String (byte (N.lor 0x80 (N.land r 0x3F))) "")
  else if (0x10FFFF <? r) || ((0xD800 <=? r) && (r <=? 0xDFFF)) then
    String (byte 0xEF) (String (byte 0xBF) (String (byte 0xBD) ""))
  else if r <=? 0xFFFF then
    String (byte (N.lor 0xE0 (N.shiftr r 12)))
      (String (byte (N.lor 0x80 (N.land (N.shiftr r 6) 0x3F)))
        (String (byte (N.lor 0x80 (N.land r 0x3F))) ""))
  else
    String (byte (N.lor 0xF0 (N.shiftr r 18)))
      (String (byte (N.lor 0x80 (N.land (N.shiftr r 12) 0x3F)))
        (String (byte (N.lor 0x80 (N.land (N.shiftr r 6) 0x3F)))
          (String (byte (N.lor 0x80 (N.land r 0x3F))) ""))).

(** The value of a hexadecimal digit. *)
Definition unhex (c : ascii) : option N :=
  let b := N_of_ascii c in
  if (0x30 <=? b) && (b <=? 0x39) then Some (b - 0x30)
  else if (0x61 <=? b) && (b <=? 0x66) then Some (b - 0x61 + 10)
  else if (0x41 <=? b) && (b <=? 0x46) then Some (b - 0x41 + 10)
  else None.

(** The code unit written by the four digits of a [\uXXXX] escape. *)
Definition getu4 (h1 h2 h3 h4 : ascii) : option N :=
  match unhex h1, unhex h2, unhex h3, unhex h4 with
  | Some a, Some b, Some c, Some d => Some (((a * 16 + b) * 16 + c) * 16 + d)
  | _, _, _, _ => None
  end.

Definition IsSurrogate (r : N) : bool := (0xD800 <=? r) && (r <? 0xE000).

(** The code point of a surrogate pair, when it is one. *)
Definition utf16_DecodeRune (r1 r2 : N) : option N :=
  if (0xD800 <=? r1) && (r1 <? 0xDC00) && (0xDC00 <=? r2) && (r2 <? 0xE000)
  then Some (N.lor (N.shiftl (r1 - 0xD800) 10) (r2 - 0xDC00) + 0x10000)
  else None.

(** The character a two-character escape stands for. *)
Definition simple_escape (e : ascii) : option ascii :=
  let b := N_of_ascii e in
  if (b =? 0x22) || (b =? 0x5C) || (b =? 0x2F) then Some e
  else if b =? 0x62 then Some (ascii_of_N 0x08)
  else if b =? 0x66 then Some (ascii_of_N 0x0C)
  else if b =? 0x6E then Some (ascii_of_N 0x0A)
  else if b =? 0x72 then Some (ascii_of_N 0x0D)
  else if b =? 0x74 then Some (ascii_of_N 0x09)
  else None.

Definition prepend (p : string) (r : option (string * string)) : option (string * string) :=
  match r with
  | Some (v, rest) => Some ((p ++ v)%string, rest)
  | None => None
  end.

Definition replacement : string := EncodeRune RuneError.

(** Reads a string literal after its opening quote: the string it denotes
    and what follows the closing quote.  Control characters are refused,
    escapes are replaced, a [\u] escape that is half of a surrogate pair
    without its other half reads as U+FFFD, every other byte stands for
    itself. *)
Fixpoint unquote (s : string) : option (string * string) :=
  match s with
  | EmptyString => None
  | String c rest =>
    let b := N_of_ascii c in
    if b =? 0x22 then Some (EmptyString, rest)
    else if b <? 0x20 then None
    else if b =? 0x5C then
      match rest with
      | EmptyString => None
      | String e rest1 =>
        match simple_escape e with
        | Some d => prepend (String d "") (unquote rest1)
        | None =>
          if N_of_ascii e =? 0x75 then
            match rest1 with
            | String h1 (String h2 (String h3 (String h4 rest2))) =>
              match getu4 h1 h2 h3 h4 with
              | None => None
              | Some rr =>
                if IsSurrogate rr then
                  match rest2 with
                  | String b1 (String u1 (String g1 (String g2 (String g3 (String g4 rest3))))) =>
                    if (N_of_ascii b1 =? 0x5C) && (N_of_ascii u1 =? 0x75) then
                      match getu4 g1 g2 g3 g4 with
                      | Some rr1 =>
                        match utf16_DecodeRune rr rr1 with
                        | Some dec => prepend (EncodeRune dec) (unquote rest3)
                        | None => prepend replacement (unquote rest2)
                        end
                      | None => prepend replacement (unquote rest2)
                      end
                    else prepend replacement (unquote rest2)
                  | _ => prepend replacement (unquote rest2)
                  end
                else prepend (EncodeRune rr) (unquote rest2)
              end
            | _ => None
            end
          else None
        end
      end
    else prepend (String c "") (unquote rest)
  end.

Definition is_ws (c : ascii) : bool :=
  let b := N_of_ascii c in
  (b =? 0x20) || (b =? 0x09) || (b =? 0x0A) || (b =? 0x0D).

Fixpoint skip_ws (s : string) : string :=
  match s with
  | String c s' => if is_ws c then skip_ws s' else s
  | EmptyString => EmptyString
  end.

(** Reads [c] after optional white space. *)
Definition expect (c : ascii) (s : string) : option string :=
  match skip_ws s with
  | String d s' => if Ascii.eqb c d then Some s' else None
  | EmptyString => None
  end.

(** Reads a string literal after optional white space. *)
Definition read_string (s : string) : option (string * string) :=
  match expect dquote s with
  | Some s' => unquote s'
  | None => None
  end.

(** Reads the members of an object after the first one's opening position:
    [name : value] pairs separated by commas, up to the closing brace. *)
Fixpoint read_members (fuel : nat) (s : string) : option (list (string * string) * string) :=
  match fuel with
  | O => None
  | S fuel' =>
    match read_string s with
    | None => None
    | Some (name, s1) =>
      match expect ":" s1 with
      | None => None
      | Some s2 =>
        match read_string s2 with
        | None => None
        | Some (value, s3) =>
          match skip_ws s3 with
          | String d s4 =>
            if Ascii.eqb d "}" then Some ([(name, value)], s4)
            else if Ascii.eqb d "," then
              match read_members fuel' s4 with
              | Some (ms, s5) => Some ((name, value) :: ms, s5)
              | None => None
              end
            else None
          | EmptyString => None
          end
        end
      end
    end
  end.

(** Reads a whole JSON text that is an object of string members: the
    members in the order written. *)
Definition json_read_object (s : string) : option (list (string * string)) :=
  match expect "{" s with
  | None => None
  | Some s1 =>
    match skip_ws s1 with
    | String d s2 =>
      if Ascii.eqb d "}" then
        match skip_ws s2 with EmptyString => Some [] | _ => None end
      else
        match read_members (String.length s1) s1 with
        | Some (ms, s3) =>
          match skip_ws s3 with EmptyString => Some ms | _ => None end
        | None => None
        end
    | EmptyString => None
    end
  end.

Local Close Scope N_scope.

(** Well-formed UTF-8 ([utf8.ValidString]): decoding rune after rune never
    meets an invalid encoding. *)
Fixpoint ValidString_loop (fuel : nat) (s : string) : bool :=
  match fuel with
  | O => true
  | S fuel' =>
    match s with
    | EmptyString => true
    | String _ _ =>
      let '(r, size) := DecodeRuneInString s in
      if (r =? RuneError)%N && (size =? 1)%nat then false
      else ValidString_loop fuel' (slice_from size s)
    end
  end.

Definition ValidString (s : string) : bool :=
  ValidString_loop (String.length s) s.

(** ** The publisher and the driver *)

(** [time.Second], in nanoseconds *)
Definition Second : Z := 1000000000.

(** [http.StatusCreated] *)
Definition StatusCreated : Z := 201.

(** [req.Header.Set(key, value)] for a key already in canonical form *)
Definition Header_Set (req : Request) (key value : string) : Request :=
  mkRequest (Method req) (URL req)
    ((key, value) :: filter (fun kv => negb (String.eqb (fst kv) key)) (Header req))
    (ReqBody req) (Timeout req).

(** [req.WithContext(ctx)] for [ctx] made by [context.WithTimeout] from the
    request's own context *)
Definition WithTimeout (req : Request) (d : Z) : Request :=
  mkRequest (Method req) (URL req) (Header req) (ReqBody req)
    (Some (match Timeout req with
           | Some d' => Z.min d d'
           | None => d
           end)).

(** The line [fmt.Errorf] makes of a response that is not 201. *)
Definition response_error (resp : Response) (bodyBytes : string) : error :=
  errorString ("http response " ++ pretty (StatusCode resp)
               ++ ", status: " ++ Status resp
               ++ ", error: " ++ bodyBytes).

Section Publisher.

Context (options : Options) (ext : Externals).

(** [http.NewRequest(method, url, bytes.NewBuffer(body))] *)
Definition http_NewRequest (method url body : string) : Request + error :=
  match NewRequest_ext ext method url with
  | Some e => inr e
  | None => inl (mkRequest method url [] body None)
  end.

Definition ProcessSignature (jsonPayload repoName repoRef accessToken : string)
  : M (option error) :=
  let resultsPayload := mkResultsPayload jsonPayload repoRef accessToken in
  match json_Marshal resultsPayload with
  | inr e => ret (Some (Errorf_w "marshalling json results" e))
  | inl payloadBytes =>
    apiURL <- os_Getenv (EnvInputInternalPublishBaseURL options) ;;
    let rawURL := apiURL ++ "/projects/github.com/" ++ repoName in
    match url_Parse_ext ext rawURL with
    | inr e => ret (Some (Errorf_w "parsing Scorecard API endpoint" e))
    | inl parsedURL =>
      match http_NewRequest "POST" parsedURL payloadBytes with
      | inr e => ret (Some (Errorf_w "creating HTTP request" e))
      | inl req =>
        let req := Header_Set req "Content-Type" "application/json" in
        let req := WithTimeout req (10 * Second) in
        r <- client_Do ext req ;;
        match r with
        | inr e => ret (Some (Errorf_w "executing scorecard-api call" e))
        | inl resp =>
          if negb (StatusCode resp =? StatusCreated)%Z then
            r <- io_ReadAll resp ;;
            match r with
            | (_, Some e) => ret (Some (Errorf_w "reading response body" e))
            | (bodyBytes, None) => ret (Some (response_error resp bodyBytes))
            end
          else ret None
        end
      end
    end
  end.

(** *** main.go *)

(** [log.Fatalf(ctx + ": %v", err)] *)
Definition log_Fatalf (ctx : string) (err : error) : M exit :=
  ret (Fatal (ctx ++ ": " ++ Error err)).

Definition main : M exit :=
  err <- cli_Execute ext ;;
  match err with
  | Some e => log_Fatalf "error during command execution" e
  | None =>
    flag <- os_Getenv (EnvInputPublishResults options) ;;
    if String.eqb flag "true" then
      r <- GetJSONScorecardResults options ext ;;
      match r with
      | inr e => log_Fatalf "error generating json scorecard results" e
      | inl jsonPayload =>
        err <- SignScorecardResult ext "results.json" ;;
        match err with
        | Some e => log_Fatalf "error signing scorecard json results" e
        | None =>
          repoName <- os_Getenv (EnvGithubRepository options) ;;
          repoRef <- os_Getenv (EnvGithubRef options) ;;
          accessToken <- os_Getenv (EnvInputRepoToken options) ;;
          err <- ProcessSignature jsonPayload repoName repoRef accessToken ;;
          match err with
          | Some e => log_Fatalf "error processing signature" e
          | None => ret Done
          end
        end
      end
    else ret Done
  end.

End Publisher.

(** The process starts with an empty trace. *)
Definition start (s : Sys) : World := mkWorld s [].

(** ** Observations on a trace *)

Definition is_sign (ev : event) : bool :=
  match ev with EvSignBlobCmd _ _ => true | _ => false end.

Definition is_publish (ev : event) : bool :=
  match ev with EvClientDo _ _ => true | _ => false end.

Definition is_secondary_scan (ev : event) : bool :=
  match ev with EvRunExecute _ => true | _ => false end.

Definition is_primary_scan (ev : event) : bool :=
  match ev with EvCliExecute _ => true | _ => false end.

Definition reads (key : string) (ev : event) : bool :=
  match ev with EvGetenv k _ => String.eqb k key | _ => false end.

(** The requests sent, in order. *)
Definition sent (t : list event) : list Request :=
  omap (fun ev => match ev with EvClientDo req _ => Some req | _ => None end) t.

(** How many events of a trace satisfy a test. *)
Definition count (p : event -> bool) (t : list event) : nat :=
  length (List.filter p t).

(** ** A run of the action, for the examples *)

Definition action_options : Options :=
  mkOptions "INPUT_RESULTS_FILE" "INPUT_RESULTS_FORMAT" "INPUT_PUBLISH_RESULTS"
    "INPUT_REPO_TOKEN" "INPUT_INTERNAL_PUBLISH_BASE_URL"
    "GITHUB_REPOSITORY" "GITHUB_REF".

Definition action_env : Env :=
  <["INPUT_RESULTS_FILE" := "results.sarif"]>
  (<["INPUT_RESULTS_FORMAT" := "sarif"]>
  (<["INPUT_PUBLISH_RESULTS" := "true"]>
  (<["INPUT_REPO_TOKEN" := "ghs_0123"]>
  (<["INPUT_INTERNAL_PUBLISH_BASE_URL" := "https://api.example.com"]>
  (<["GITHUB_REPOSITORY" := "octo/repo"]>
  (<["GITHUB_REF" := "refs/heads/main"]> ∅)))))).

Definition action_sys : Sys := mkSys action_env ∅.

(** A scan engine that writes its report where the environment says, or
    fails. *)
Definition scan (failure : option error) (s : Sys) : Sys * option error :=
  match failure with
  | Some e => (s, Some e)
  | None =>
      (mkSys (env s)
         (<[Getenv "INPUT_RESULTS_FILE" (env s) := "{}"]> (fs s)), None)
  end.

(** Collaborators that do as told: the scan run again, the signer, the URL
    parser and the request constructor succeed or fail with the error given,
    the transport gives the answer given. *)
Definition collaborators (rescan sign parse create : option error)
    (answer : Response + error) : Externals :=
  mkExternals (scan None) (scan rescan)
    (fun _ s => (s, sign))
    (fun rawURL => match parse with Some e => inr e | None => inl rawURL end)
    (fun _ _ => create)
    (fun _ _ => answer).

Definition created : Response := mkResponse 201 "201 Created" ("", None).

Definition healthy : Externals :=
  collaborators None None None None (inl created).

Definition no_token : error := errorString "getting ID token: no OIDC provider".

Definition signer_fails : Externals :=
  collaborators None (Some no_token) None None (inl created).

Definition scan_error : error := errorString "repo unreachable".

Definition rescan_fails : Externals :=
  collaborators (Some scan_error) None None None (inl created).

Definition bad_url : error :=
  wrapError "parse : net/url: invalid control character in URL"
            (errorString "net/url: invalid control character in URL").

Definition parser_fails : Externals :=
  collaborators None None (Some bad_url) None (inl created).

(** An answer that is not 201 and whose body is read to its end. *)
Definition conflict : Response :=
  mkResponse 200 "200 OK" ("result already published", None).

Definition answers_200 : Externals :=
  collaborators None None None None (inl conflict).

(** An answer that is not 201 and whose body breaks off. *)
Definition broken_off : Response :=
  mkResponse 500 "500 Internal Server Error"
    ("upstream unavail", Some (errorString "unexpected EOF")).

Definition answers_broken_off : Externals :=
  collaborators None None None None (inl broken_off).

(** A payload that is not UTF-8: the single byte [0xFF]. *)
Definition not_utf8 : string := String (ascii_of_N 255) "".

(** ** Intermediate states and further observations *)

(** The system the scan run again starts from: [s] after lines 70 and 71 of
    [GetJSONScorecardResults]. *)
Definition rescan_input (options : Options) (s : Sys) : Sys :=
  mkSys (fst (Setenv (EnvInputResultsFormat options) "json"
                (fst (Setenv (EnvInputResultsFile options) "results.json" (env s)))))
        (fs s).

(** The system the signer starts from: [s] after line 40 of
    [SignScorecardResult]. *)
Definition signer_input (s : Sys) : Sys :=
  mkSys (fst (Setenv "COSIGN_EXPERIMENTAL" "true" (env s))) (fs s).

Definition is_read_file (ev : event) : bool :=
  match ev with EvReadFile _ _ => true | _ => false end.

Definition is_read_all (ev : event) : bool :=
  match ev with EvReadAll _ => true | _ => false end.

Definition is_setenv (ev : event) : bool :=
  match ev with EvSetenv _ _ _ => true | _ => false end.

(** The scan run again has succeeded. *)
Definition is_rescan_ok (ev : event) : bool :=
  match ev with EvRunExecute None => true | _ => false end.

(** A results file has been read. *)
Definition is_read_ok (ev : event) : bool :=
  match ev with EvReadFile _ (inl _) => true | _ => false end.

(** The file [results.json] has been signed. *)
Definition is_signed (ev : event) : bool :=
  match ev with
  | EvSignBlobCmd file None => String.eqb file "results.json"
  | _ => false
  end.

(** [precedes p q t]: every event of [t] that satisfies [q] comes after an
    event that satisfies [p]. *)
Fixpoint all_after (seen : bool) (p q : event -> bool) (t : list event) : bool :=
  match t with
  | [] => true
  | ev :: t' => (if q ev then seen else true) && all_after (seen || p ev) p q t'
  end.

Definition precedes (p q : event -> bool) (t : list event) : bool :=
  all_after false p q t.

(** What [json.Marshal] makes of a Go string before writing it: every byte
    that does not begin a well-formed UTF-8 encoding is replaced by the
    encoding of U+FFFD, everything else is kept. *)
Fixpoint coerce_loop (fuel : nat) (s : string) : string :=
  match fuel with
  | O => EmptyString
  | S fuel' =>
    match s with
    | EmptyString => EmptyString
    | String _ _ =>
      let '(r, size) := DecodeRuneInString s in
      if (r =? RuneError)%N && (size =? 1)%nat
      then replacement ++ coerce_loop fuel' (slice_from 1 s)
      else slice_to size s ++ coerce_loop fuel' (slice_from size s)
    end
  end.

Definition coerce (s : string) : string := coerce_loop (String.length s) s.

Definition connection_refused : error :=
  wrapError "Post : dial tcp: connection refused" (errorString "connection refused").

Definition transport_fails : Externals :=
  collaborators None None None None (inr connection_refused).

(** Collaborators whose primary scan fails. *)
Definition cli_fails : Externals :=
  mkExternals (scan (Some scan_error)) (scan None) (fun _ s => (s, None))
    (fun rawURL => inl rawURL) (fun _ _ => None) (fun _ _ => inl created).

(** The first request of a trace (an empty request when there is none). *)
Definition first_request (t : list event) : Request :=
  default (mkRequest "" "" [] "" None) (head (sent t)).

(** * Properties *)

(** ** The environment *)

Lemma valid_key_nonempty key : valid_key key = true -> String.eqb key "" = false.
Proof.
  unfold valid_key. destruct (String.eqb key ""); [discriminate | reflexivity].
Qed.

Lemma Getenv_valid_value e key : env_wf e -> valid_value (Getenv key e) = true.
Proof.
  intros Hwf. unfold Getenv, LookupEnv.
  destruct (String.eqb key ""); [reflexivity |].
  destruct (e !! key) as [v |] eqn:Hv; [| reflexivity].
  exact (proj2 (Hwf _ _ Hv)).
Qed.

Lemma Setenv_ok key value e :
  valid_key key = true -> valid_value value = true ->
  Setenv key value e = (<[key := value]> e, None).
Proof. intros Hk Hv. unfold Setenv. rewrite Hk, Hv. reflexivity. Qed.

Lemma Setenv_lookup_ne key value e k' :
  key <> k' -> fst (Setenv key value e) !! k' = e !! k'.
Proof.
  intros Hne. unfold Setenv.
  destruct (valid_key key && valid_value value); simpl; [| reflexivity].
  apply lookup_insert_ne. exact Hne.
Qed.

Lemma Setenv_lookup_eq key value e :
  valid_key key = true -> valid_value value = true ->
  fst (Setenv key value e) !! key = Some value.
Proof.
  intros Hk Hv. rewrite Setenv_ok by assumption. simpl. apply lookup_insert_eq.
Qed.

Lemma Getenv_lookup key e v :
  valid_key key = true -> e !! key = Some v -> Getenv key e = v.
Proof.
  intros Hk Hv. unfold Getenv, LookupEnv.
  rewrite (valid_key_nonempty _ Hk), Hv. reflexivity.
Qed.

(** Unfolds one layer of the steps of the process. *)
Ltac step :=
  unfold bind, ret, os_Getenv, os_Setenv, os_ReadFile, run_Execute,
    cli_Execute, sign_SignBlobCmd, client_Do, io_ReadAll, log_Fatalf; simpl.

(** ** The scan run again *)

Section ScanInvoker.

Context (options : Options) (ext : Externals).

(** Whatever the scan does, the environment [GetJSONScorecardResults] leaves
    is the one its two deferred calls make, the format first, from the values
    read when the [defer] statements were executed. *)
Lemma GetJSONScorecardResults_env (w : World) :
  exists mid : Env,
    env (sys (fst (GetJSONScorecardResults options ext w))) =
    fst (Setenv (EnvInputResultsFile options)
           (Getenv (EnvInputResultsFile options) (env (sys w)))
           (fst (Setenv (EnvInputResultsFormat options)
                   (Getenv (EnvInputResultsFormat options) (env (sys w)))
                   mid))).
Proof.
  unfold GetJSONScorecardResults. step.
  destruct (GetJSONScorecardResults_body options ext _) as [w1 r] eqn:Hbody.
  simpl.
  destruct (Setenv (EnvInputResultsFormat options) _ (env (sys w1))) as [e2 r2] eqn:H2.
  simpl.
  destruct (Setenv (EnvInputResultsFile options) _ e2) as [e3 r3] eqn:H3.
  simpl. exists (env (sys w1)). rewrite H2. simpl. rewrite H3. reflexivity.
Qed.

End ScanInvoker.

(** C1: when the two variable names are names [os.Setenv] accepts and the
    environment is one the operating system can hand over, the values
    [os.Getenv] gives for the results file and the results format after
    [GetJSONScorecardResults] has returned, with a payload or with an error,
    are the values it gave before the call. *)
Theorem GetJSONScorecardResults_restores
    (options : Options) (ext : Externals) (w w' : World) (r : string + error) :
  valid_key (EnvInputResultsFile options) = true ->
  valid_key (EnvInputResultsFormat options) = true ->
  env_wf (env (sys w)) ->
  GetJSONScorecardResults options ext w = (w', r) ->
  Getenv (EnvInputResultsFile options) (env (sys w')) =
    Getenv (EnvInputResultsFile options) (env (sys w)) /\
  Getenv (EnvInputResultsFormat options) (env (sys w')) =
    Getenv (EnvInputResultsFormat options) (env (sys w)).
Proof.
  intros Hfile Hformat Hwf Hrun.
  destruct (GetJSONScorecardResults_env options ext w) as [mid Henv].
  rewrite Hrun in Henv. simpl in Henv. rewrite Henv. clear Henv Hrun.
  set (file := EnvInputResultsFile options) in *.
  set (format := EnvInputResultsFormat options) in *.
  pose proof (Getenv_valid_value (env (sys w)) file Hwf) as Hvf.
  pose proof (Getenv_valid_value (env (sys w)) format Hwf) as Hvm.
  split.
  - apply Getenv_lookup; [assumption |]. apply Setenv_lookup_eq; assumption.
  - apply Getenv_lookup; [assumption |].
    destruct (decide (file = format)) as [Heq | Hne].
    + rewrite <- Heq at 1 3. rewrite <- Heq.
      apply Setenv_lookup_eq; assumption.
    + rewrite Setenv_lookup_ne by assumption.
      apply Setenv_lookup_eq; assumption.
Qed.

(** C10: a results-file or results-format variable that is absent before
    [GetJSONScorecardResults] is called is present, with the empty string as
    its value, after the call has returned; [os.Getenv] gives the empty string
    before and after. *)
Theorem GetJSONScorecardResults_sets_unset
    (options : Options) (ext : Externals) (w w' : World) (r : string + error)
    (key : string) :
  key = EnvInputResultsFile options \/ key = EnvInputResultsFormat options ->
  valid_key key = true ->
  env (sys w) !! key = None ->
  GetJSONScorecardResults options ext w = (w', r) ->
  LookupEnv key (env (sys w)) = None /\
  LookupEnv key (env (sys w')) = Some "" /\
  Getenv key (env (sys w)) = "" /\
  Getenv key (env (sys w')) = "".
Proof.
  intros Hkey Hvalid Habsent Hrun.
  destruct (GetJSONScorecardResults_env options ext w) as [mid Henv].
  rewrite Hrun in Henv. simpl in Henv.
  assert (Hbefore : Getenv key (env (sys w)) = "").
  { unfold Getenv, LookupEnv. rewrite Habsent.
    destruct (String.eqb key ""); reflexivity. }
  assert (Hafter : env (sys w') !! key = Some "").
  { rewrite Henv. destruct Hkey as [-> | ->].
    - rewrite Hbefore. apply Setenv_lookup_eq; [assumption | reflexivity].
    - destruct (decide (EnvInputResultsFile options = EnvInputResultsFormat options))
        as [Heq | Hne].
      + rewrite Heq. rewrite Hbefore.
        apply Setenv_lookup_eq; [assumption | reflexivity].
      + rewrite Setenv_lookup_ne by assumption. rewrite Hbefore.
        apply Setenv_lookup_eq; [assumption | reflexivity]. }
  unfold Getenv, LookupEnv.
  rewrite (valid_key_nonempty _ Hvalid), Habsent, Hafter. auto.
Qed.

(** ** The signer and the errors of the package *)

(** C7: no error returned by [SignScorecardResult] or by
    [GetJSONScorecardResults] comes from setting an environment variable.
    An error of [SignScorecardResult] is the error of [sign.SignBlobCmd],
    wrapped; an error of [GetJSONScorecardResults] is the error of the scan
    or of reading the results file, wrapped.  The test on the result of
    setting [COSIGN_EXPERIMENTAL] never fires: [os.Setenv] accepts that name
    and that value. *)
Theorem Setenv_never_the_error (options : Options) (ext : Externals) (w : World) :
  (forall file,
      In (EvSetenv "COSIGN_EXPERIMENTAL" "true" None)
         (trace (fst (SignScorecardResult ext file w)))) /\
  (forall file w' e,
      SignScorecardResult ext file w = (w', Some e) ->
      exists e0, e = Errorf_w "error signing payload" e0 /\
                 last (trace w') = Some (EvSignBlobCmd file (Some e0))) /\
  (forall w' e,
      GetJSONScorecardResults options ext w = (w', inr e) ->
      exists e0,
        (e = Errorf_w "error during command execution" e0 /\
         In (EvRunExecute (Some e0)) (trace w')) \/
        (exists path,
            e = Errorf_w "reading scorecard json results from file" e0 /\
            In (EvReadFile path (inr e0)) (trace w'))).
Proof.
  split; [| split].
  - intros file. unfold SignScorecardResult. step.
    destruct (SignBlobCmd_ext ext file _) as [s' [e0 |]]; simpl;
      rewrite !in_app_iff; simpl; tauto.
  - intros file w' e. unfold SignScorecardResult. step.
    destruct (SignBlobCmd_ext ext file _) as [s' [e0 |]] eqn:Hsign; simpl;
      intros [= <- <-]; simpl.
    exists e0. split; [reflexivity |]. apply last_snoc.
  - intros w' e. unfold GetJSONScorecardResults, GetJSONScorecardResults_body. step.
    repeat match goal with
           | |- context [Setenv ?k ?v ?m] =>
               let E := fresh "E" in destruct (Setenv k v m) as [? ?] eqn:E; simpl
           | |- context [run_Execute_ext ?x ?s] =>
               let E := fresh "E" in
               destruct (run_Execute_ext x s) as [? [? |]] eqn:E; simpl
           | |- context [@lookup _ _ (gmap string string) _ ?k ?m] =>
               let E := fresh "E" in destruct (m !! k) eqn:E; simpl
           end;
      intros [= <- <-]; simpl; eexists.
    + left. split; [reflexivity |].
      rewrite !in_app_iff. simpl. tauto.
    + right. eexists. split; [reflexivity |].
      rewrite !in_app_iff. simpl. tauto.
Qed.

(** ** The driver *)

Arguments appendString : simpl never.

(** Takes the cases of every call to the outside met in the goal. *)
Ltac externals :=
  repeat match goal with
         | |- context [Setenv ?k ?v ?m] =>
             let E := fresh "E" in destruct (Setenv k v m) as [? ?] eqn:E; simpl
         | |- context [cli_Execute_ext ?x ?s] =>
             let E := fresh "E" in
             destruct (cli_Execute_ext x s) as [? [? |]] eqn:E; simpl
         | |- context [run_Execute_ext ?x ?s] =>
             let E := fresh "E" in
             destruct (run_Execute_ext x s) as [? [? |]] eqn:E; simpl
         | |- context [SignBlobCmd_ext ?x ?f ?s] =>
             let E := fresh "E" in
             destruct (SignBlobCmd_ext x f s) as [? [? |]] eqn:E; simpl
         | |- context [url_Parse_ext ?x ?u] =>
             let E := fresh "E" in
             destruct (url_Parse_ext x u) as [? | ?] eqn:E; simpl
         | |- context [NewRequest_ext ?x ?m ?u] =>
             let E := fresh "E" in
             destruct (NewRequest_ext x m u) as [? |] eqn:E; simpl
         | |- context [client_Do_ext ?x ?r ?s] =>
             let E := fresh "E" in
             destruct (client_Do_ext x r s) as [? | ?] eqn:E; simpl
         | |- context [(StatusCode ?r =? StatusCreated)%Z] =>
             let E := fresh "E" in
             destruct (StatusCode r =? StatusCreated)%Z eqn:E; simpl
         | |- context [Body ?r] =>
             let E := fresh "E" in
             destruct (Body r) as [? [? |]] eqn:E; simpl
         | |- context [String.eqb (Getenv ?k ?m) "true"] =>
             let E := fresh "E" in
             destruct (String.eqb (Getenv k m) "true") eqn:E; simpl
         | |- context [@lookup _ _ (gmap string string) _ ?k ?m] =>
             let E := fresh "E" in destruct (m !! k) eqn:E; simpl
         end.

(** C3: in every execution of the driver, when the scan run again has
    returned an error (the scan itself, or reading its results file), no
    signing and no publishing call has been made and the process has ended
    in [log.Fatalf] with the line of the scan phase; when signing has returned
    an error, no publishing call has been made. *)
Theorem main_stops_at_first_failure
    (options : Options) (ext : Externals) (s : Sys) (w : World) (out : exit) :
  main options ext (start s) = (w, out) ->
  ((exists e, In (EvRunExecute (Some e)) (trace w)) \/
   (exists path e, In (EvReadFile path (inr e)) (trace w)) ->
   count is_sign (trace w) = 0 /\
   count is_publish (trace w) = 0 /\
   exists e, out = Fatal ("error generating json scorecard results: " ++ Error e)) /\
  ((exists file e, In (EvSignBlobCmd file (Some e)) (trace w)) ->
   count is_publish (trace w) = 0 /\
   exists e, out = Fatal ("error signing scorecard json results: " ++ Error e)).
Proof.
  unfold main, GetJSONScorecardResults, GetJSONScorecardResults_body,
    SignScorecardResult, ProcessSignature, http_NewRequest, start.
  step. externals; intros [= <- <-]; simpl;
    (split;
     [ intros [[e0 Hin] | [p0 [e0 Hin]]]
     | intros [f0 [e0 Hin]] ]);
    simpl in Hin;
    try (exfalso; intuition discriminate);
    repeat split; try reflexivity;
    try (eexists (errorString _); reflexivity).
Qed.

Lemma String_eqb_false (a b : string) : a <> b -> String.eqb a b = false.
Proof. intros H. apply String.eqb_neq. exact H. Qed.

(** After a successful primary scan: the scan is run again exactly when the
    flag reads ["true"]; otherwise the trace is the primary scan and the
    reading of the flag; in every case there is one primary scan and one
    reading of the flag. *)
Lemma main_flag_counts
    (options : Options) (ext : Externals) (s s1 : Sys) (w : World) (out : exit) :
  Forall (fun key => key <> EnvInputPublishResults options)
    [EnvInputResultsFile options; EnvInputResultsFormat options;
     EnvGithubRepository options; EnvGithubRef options;
     EnvInputRepoToken options; EnvInputInternalPublishBaseURL options] ->
  cli_Execute_ext ext s = (s1, None) ->
  main options ext (start s) = (w, out) ->
  let flag := Getenv (EnvInputPublishResults options) (env s1) in
  (count is_secondary_scan (trace w) = 1 <-> flag = "true") /\
  (flag <> "true" ->
   trace w = [EvCliExecute None; EvGetenv (EnvInputPublishResults options) flag] /\
   out = Done) /\
  count is_primary_scan (trace w) = 1 /\
  count (reads (EnvInputPublishResults options)) (trace w) = 1.
Proof.
  intros Hkeys Hcli.
  repeat match goal with
         | H : Forall _ (_ :: _) |- _ =>
             let Hne := fresh "Hne" in
             apply Forall_cons in H; destruct H as [Hne H];
             apply String_eqb_false in Hne
         end.
  unfold main, GetJSONScorecardResults, GetJSONScorecardResults_body,
    SignScorecardResult, ProcessSignature, http_NewRequest, start.
  step. rewrite Hcli. simpl.
  destruct (String.eqb (Getenv (EnvInputPublishResults options) (env s1)) "true")
    eqn:Hflag; simpl.
  - apply String.eqb_eq in Hflag.
    externals; intros [= <- <-]; simpl; unfold count; simpl;
      rewrite ?String.eqb_refl, ?Hne, ?Hne0, ?Hne1, ?Hne2, ?Hne3, ?Hne4; simpl;
      (split; [tauto |]); (split; [congruence |]); split; reflexivity.
  - apply String.eqb_neq in Hflag.
    intros [= <- <-]. unfold count. simpl. rewrite String.eqb_refl. simpl.
    split; [split; [discriminate | tauto] |]. auto.
Qed.

(** After a successful primary scan and with the flag reading ["true"], a
    run of the driver is the scan run again, then, when that gave a payload,
    the signing of [results.json], then, when that succeeded, the reading of
    the repository name, the ref and the token and the publishing of the
    payload; the first error ends the run in [log.Fatalf]. *)
Lemma main_post_scan_branch
    (options : Options) (ext : Externals) (s s1 : Sys) (w : World) (out : exit) :
  cli_Execute_ext ext s = (s1, None) ->
  Getenv (EnvInputPublishResults options) (env s1) = "true" ->
  main options ext (start s) = (w, out) ->
  let w1 := mkWorld s1 [EvCliExecute None;
                        EvGetenv (EnvInputPublishResults options) "true"] in
  exists (w2 : World) (r1 : string + error),
    GetJSONScorecardResults options ext w1 = (w2, r1) /\
    match r1 with
    | inr e =>
        w = w2 /\
        out = Fatal ("error generating json scorecard results: " ++ Error e)
    | inl jsonPayload =>
        exists (w3 : World) (r2 : option error),
          SignScorecardResult ext "results.json" w2 = (w3, r2) /\
          match r2 with
          | Some e =>
              w = w3 /\
              out = Fatal ("error signing scorecard json results: " ++ Error e)
          | None =>
              let repoName := Getenv (EnvGithubRepository options) (env (sys w3)) in
              let repoRef := Getenv (EnvGithubRef options) (env (sys w3)) in
              let accessToken := Getenv (EnvInputRepoToken options) (env (sys w3)) in
              let w4 :=
                mkWorld (sys w3)
                  (trace w3 ++
                   [EvGetenv (EnvGithubRepository options) repoName;
                    EvGetenv (EnvGithubRef options) repoRef;
                    EvGetenv (EnvInputRepoToken options) accessToken]) in
              exists r3 : option error,
                ProcessSignature options ext jsonPayload repoName repoRef
                  accessToken w4 = (w, r3) /\
                out = match r3 with
                      | None => Done
                      | Some e => Fatal ("error processing signature: " ++ Error e)
                      end
          end
    end.
Proof.
  intros Hcli Hflag Hrun w1. subst w1. revert Hrun.
  cbv beta iota zeta delta [main bind ret os_Getenv cli_Execute start log_Fatalf].
  cbn [sys trace]. rewrite Hcli. cbv beta iota zeta. cbn [sys trace env].
  rewrite Hflag.
  change (String.eqb "true" "true") with true. cbv beta iota.
  change (([] ++ [EvCliExecute None]) ++
          [EvGetenv (EnvInputPublishResults options) "true"])%list
    with [EvCliExecute None; EvGetenv (EnvInputPublishResults options) "true"].
  destruct (GetJSONScorecardResults options ext _) as [w2 [jsonPayload | e1]];
    cbv beta iota.
  - destruct (SignScorecardResult ext "results.json" w2) as [w3 [e2 |]] eqn:Hsign;
      cbv beta iota.
    + intros [= <- <-]. exists w2, (inl jsonPayload). split; [reflexivity |].
      exists w3, (Some e2). auto.
    + cbn [sys trace env]. rewrite <- !app_assoc. cbn [app].
      destruct (ProcessSignature options ext jsonPayload _ _ _ _) as [w5 r3] eqn:Hpub.
      cbv beta iota. intros Hrun. exists w2, (inl jsonPayload).
      split; [reflexivity |].
      exists w3, None. split; [assumption |].
      exists r3. destruct r3; injection Hrun as <- <-; auto.
  - intros [= <- <-]. exists w2, (inr e1). auto.
Qed.

(** C6, as the code has it: when the primary scan has succeeded, the driver
    reads the publish flag once, and enters the post-scan branch exactly when
    [os.Getenv] gives ["true"] for it.  In the branch it runs the scan again,
    then signs [results.json] when the scan gave a payload, then publishes
    when the signing succeeded.  For any other value, the unset variable's
    empty string included, the trace is the primary scan followed by the
    reading of the flag, and the process ends normally.  (The flag's name is
    taken to differ from the names of the other variables read.) *)
Theorem main_reads_publish_flag_once
    (options : Options) (ext : Externals) (s s1 : Sys) (w : World) (out : exit) :
  Forall (fun key => key <> EnvInputPublishResults options)
    [EnvInputResultsFile options; EnvInputResultsFormat options;
     EnvGithubRepository options; EnvGithubRef options;
     EnvInputRepoToken options; EnvInputInternalPublishBaseURL options] ->
  cli_Execute_ext ext s = (s1, None) ->
  main options ext (start s) = (w, out) ->
  let flag := Getenv (EnvInputPublishResults options) (env s1) in
  let w1 := mkWorld s1 [EvCliExecute None;
                        EvGetenv (EnvInputPublishResults options) flag] in
  (count is_secondary_scan (trace w) = 1 <-> flag = "true") /\
  (flag <> "true" -> trace w = trace w1 /\ out = Done) /\
  (flag = "true" ->
   exists (w2 : World) (r1 : string + error),
     GetJSONScorecardResults options ext w1 = (w2, r1) /\
     match r1 with
     | inr e =>
         w = w2 /\
         out = Fatal ("error generating json scorecard results: " ++ Error e)
     | inl jsonPayload =>
         exists (w3 : World) (r2 : option error),
           SignScorecardResult ext "results.json" w2 = (w3, r2) /\
           match r2 with
           | Some e =>
               w = w3 /\
               out = Fatal ("error signing scorecard json results: " ++ Error e)
           | None =>
               let repoName := Getenv (EnvGithubRepository options) (env (sys w3)) in
               let repoRef := Getenv (EnvGithubRef options) (env (sys w3)) in
               let accessToken := Getenv (EnvInputRepoToken options) (env (sys w3)) in
               let w4 :=
                 mkWorld (sys w3)
                   (trace w3 ++
                    [EvGetenv (EnvGithubRepository options) repoName;
                     EvGetenv (EnvGithubRef options) repoRef;
                     EvGetenv (EnvInputRepoToken options) accessToken]) in
               exists r3 : option error,
                 ProcessSignature options ext jsonPayload repoName repoRef
                   accessToken w4 = (w, r3) /\
                 out = match r3 with
                       | None => Done
                       | Some e => Fatal ("error processing signature: " ++ Error e)
                       end
           end
     end) /\
  count is_primary_scan (trace w) = 1 /\
  count (reads (EnvInputPublishResults options)) (trace w) = 1.
Proof.
  intros Hkeys Hcli Hrun flag w1.
  destruct (main_flag_counts options ext s s1 w out Hkeys Hcli Hrun)
    as (Hscan & Hother & Hprimary & Hreads).
  split; [exact Hscan |]. split; [exact Hother |].
  split; [| split; assumption].
  intros Hflag. subst w1. rewrite Hflag.
  exact (main_post_scan_branch options ext s s1 w out Hcli Hflag Hrun).
Qed.

(** ** The publisher *)

Lemma HasPrefix_refl (s : string) : HasPrefix s s = true.
Proof. induction s as [| c s IH]; simpl; [| rewrite Ascii.eqb_refl]; auto. Qed.

Lemma Contains_refl (s : string) : Contains s s = true.
Proof. destruct s; simpl; [reflexivity |]. rewrite Ascii.eqb_refl, HasPrefix_refl. reflexivity. Qed.

Lemma Contains_app (p t s : string) :
  Contains t s = true -> Contains (p ++ t) s = true.
Proof.
  intros H. induction p as [| c p IH]; simpl; [exact H |].
  fold (Contains (p ++ t) s). rewrite IH. apply orb_true_r.
Qed.

(** The message of a response that is not 201 ends with the body read. *)
Lemma response_error_contains (resp : Response) (bodyBytes : string) :
  Contains (Error (response_error resp bodyBytes)) bodyBytes = true.
Proof.
  unfold response_error, Error.
  do 5 apply Contains_app. apply Contains_refl.
Qed.

Arguments response_error : simpl never.
Arguments Contains : simpl never.

Lemma sent_app (t1 t2 : list event) : sent (t1 ++ t2) = (sent t1 ++ sent t2)%list.
Proof. unfold sent. apply omap_app. Qed.

(** C2, as the code has it: once the transport has answered, the result of
    [ProcessSignature] is [nil] exactly when the status code is 201; for any
    other code it is an error, whose message contains the text of the body
    when the body could be read to its end, and which is the wrapped reading
    error when it could not. *)
Theorem ProcessSignature_created_only
    (options : Options) (ext : Externals) (w w' : World) (r : option error)
    (jsonPayload repoName repoRef accessToken : string)
    (evs : list event) (req : Request) (resp : Response) :
  ProcessSignature options ext jsonPayload repoName repoRef accessToken w = (w', r) ->
  trace w' = (trace w ++ evs)%list ->
  In (EvClientDo req (inl resp)) evs ->
  (r = None <-> StatusCode resp = StatusCreated) /\
  (StatusCode resp <> StatusCreated ->
   match Body resp with
   | (bodyBytes, None) =>
       r = Some (response_error resp bodyBytes) /\
       Contains (Error (response_error resp bodyBytes)) bodyBytes = true
   | (_, Some e) => r = Some (Errorf_w "reading response body" e)
   end).
Proof.
  unfold ProcessSignature, http_NewRequest. step.
  externals; intros [= <- <-]; simpl; rewrite <- ?app_assoc; simpl;
    intros Hevs%app_inv_head; subst evs; simpl;
    intros Hin;
    repeat match goal with
           | H : _ \/ _ |- _ => destruct H
           | H : False |- _ => destruct H
           | H : EvClientDo _ _ = EvClientDo _ _ |- _ => injection H as <- <-
           | H : _ = _ :> event |- _ => discriminate H
           end.
  all: repeat match goal with
              | H : (_ =? _)%Z = true |- _ => apply Z.eqb_eq in H
              | H : (_ =? _)%Z = false |- _ => apply Z.eqb_neq in H
              end.
  all: split;
    [ split; intros Heq; first [discriminate Heq | tauto | contradiction]
    | intros Hne;
      first [ contradiction
            | congruence
            | split; [congruence | apply response_error_contains] ] ].
Qed.

(** C5: with ["https://api.example.com"] as the base URL in the environment
    and ["octo/repo"] as the repository name, and [net/url] and
    [http.NewRequest] accepting the address unchanged, [ProcessSignature]
    sends one request, a POST to
    ["https://api.example.com/projects/github.com/octo/repo"]. *)
Theorem ProcessSignature_endpoint
    (options : Options) (ext : Externals) (w w' : World) (r : option error)
    (jsonPayload repoRef accessToken : string) :
  let endpoint := "https://api.example.com/projects/github.com/octo/repo" in
  Getenv (EnvInputInternalPublishBaseURL options) (env (sys w)) = "https://api.example.com" ->
  url_Parse_ext ext endpoint = inl endpoint ->
  NewRequest_ext ext "POST" endpoint = None ->
  ProcessSignature options ext jsonPayload "octo/repo" repoRef accessToken w = (w', r) ->
  exists req,
    sent (trace w') = (sent (trace w) ++ [req])%list /\
    Method req = "POST" /\
    URL req = endpoint.
Proof.
  intros endpoint Hbase Hparse Hnew. subst endpoint.
  unfold ProcessSignature, http_NewRequest. step.
  rewrite Hbase. simpl.
  match goal with
  | |- context [url_Parse_ext ext ?u] =>
      change u with "https://api.example.com/projects/github.com/octo/repo"
  end.
  rewrite Hparse. simpl. rewrite Hnew. simpl.
  externals; intros [= <- <-]; simpl; rewrite !sent_app; simpl;
    rewrite ?app_nil_r, <- ?app_assoc; eexists; (split; [reflexivity |]); split; reflexivity.
Qed.

(** C9: marshalling the body does not fail; when parsing the endpoint or
    creating the request fails, [ProcessSignature] returns that error,
    wrapped, and has sent no request. *)
Theorem ProcessSignature_fails_before_transport
    (options : Options) (ext : Externals) (w w' : World) (r : option error)
    (jsonPayload repoName repoRef accessToken : string) :
  ProcessSignature options ext jsonPayload repoName repoRef accessToken w = (w', r) ->
  let rawURL := Getenv (EnvInputInternalPublishBaseURL options) (env (sys w))
                ++ "/projects/github.com/" ++ repoName in
  (exists payloadBytes,
      json_Marshal (mkResultsPayload jsonPayload repoRef accessToken) = inl payloadBytes) /\
  (forall e, url_Parse_ext ext rawURL = inr e ->
             r = Some (Errorf_w "parsing Scorecard API endpoint" e) /\
             sent (trace w') = sent (trace w)) /\
  (forall parsedURL e,
      url_Parse_ext ext rawURL = inl parsedURL ->
      NewRequest_ext ext "POST" parsedURL = Some e ->
      r = Some (Errorf_w "creating HTTP request" e) /\
      sent (trace w') = sent (trace w)).
Proof.
  intros Hrun rawURL. split; [eexists; reflexivity |].
  revert Hrun. unfold ProcessSignature, http_NewRequest. step. fold rawURL.
  split.
  - intros e He. rewrite He in Hrun. simpl in Hrun. injection Hrun as <- <-.
    simpl. rewrite sent_app. simpl. rewrite app_nil_r. auto.
  - intros u e Hu He. rewrite Hu in Hrun. simpl in Hrun. rewrite He in Hrun.
    simpl in Hrun. injection Hrun as <- <-.
    simpl. rewrite sent_app. simpl. rewrite app_nil_r. auto.
Qed.

(** ** The request body *)

Section Body.

Local Open Scope N_scope.

(** Bits shifted left by [k] places do not meet a number below [2 ^ k]. *)
Lemma land_shiftl_small (a c : N) (k : N) :
  c < 2 ^ k -> N.land (N.shiftl a k) c = 0.
Proof.
  intros Hc. apply N.bits_inj. intros n. rewrite N.land_spec, N.bits_0.
  destruct (N.lt_ge_cases n k) as [Hlt | Hge].
  - rewrite N.shiftl_spec_low by assumption. reflexivity.
  - rewrite <- (N.mod_small c (2 ^ k)) by assumption.
    rewrite N.mod_pow2_bits_high by assumption. apply andb_false_r.
Qed.

(** ... so that their disjunction is their sum. *)
Lemma lor_shiftl_add (a c : N) (k : N) :
  c < 2 ^ k -> N.lor (N.shiftl a k) c = a * 2 ^ k + c.
Proof.
  intros Hc. rewrite <- N.lxor_lor by (apply land_shiftl_small; assumption).
  rewrite <- N.add_nocarry_lxor by (apply land_shiftl_small; assumption).
  rewrite N.shiftl_mul_pow2. reflexivity.
Qed.

(** The rune of a two-, three- and four-byte encoding, in arithmetic. *)
Lemma rune2 (b0 b1 : N) :
  N.lor (N.shiftl (N.land b0 0x1F) 6) (N.land b1 0x3F) = (b0 mod 32) * 64 + b1 mod 64.
Proof.
  change 0x1F with (N.ones 5). change 0x3F with (N.ones 6).
  rewrite !N.land_ones. rewrite lor_shiftl_add; [reflexivity |].
  apply N.mod_lt. discriminate.
Qed.

Lemma rune3 (b0 b1 b2 : N) :
  N.lor (N.lor (N.shiftl (N.land b0 0x0F) 12) (N.shiftl (N.land b1 0x3F) 6))
        (N.land b2 0x3F)
  = (b0 mod 16) * 4096 + (b1 mod 64) * 64 + b2 mod 64.
Proof.
  change 0x0F with (N.ones 4). change 0x3F with (N.ones 6).
  rewrite !N.land_ones.
  replace 12 with (6 + 6) by reflexivity.
  rewrite <- N.shiftl_shiftl, <- N.shiftl_lor.
  rewrite (lor_shiftl_add (b0 mod 2 ^ 4) (b1 mod 2 ^ 6) 6) by (apply N.mod_lt; discriminate).
  rewrite lor_shiftl_add by (apply N.mod_lt; discriminate).
  change (2 ^ 4) with 16. change (2 ^ 6) with 64. lia.
Qed.

Lemma rune4 (b0 b1 b2 b3 : N) :
  N.lor (N.lor (N.lor (N.shiftl (N.land b0 0x07) 18) (N.shiftl (N.land b1 0x3F) 12))
               (N.shiftl (N.land b2 0x3F) 6))
        (N.land b3 0x3F)
  = (b0 mod 8) * 262144 + (b1 mod 64) * 4096 + (b2 mod 64) * 64 + b3 mod 64.
Proof.
  change 0x07 with (N.ones 3). change 0x3F with (N.ones 6).
  rewrite !N.land_ones.
  replace 18 with (6 + 6 + 6) by reflexivity.
  replace 12 with (6 + 6) by reflexivity.
  rewrite <- !N.shiftl_shiftl, <- !N.shiftl_lor.
  rewrite (lor_shiftl_add (b0 mod 2 ^ 3) (b1 mod 2 ^ 6) 6) by (apply N.mod_lt; discriminate).
  rewrite (lor_shiftl_add _ (b2 mod 2 ^ 6) 6) by (apply N.mod_lt; discriminate).
  rewrite lor_shiftl_add by (apply N.mod_lt; discriminate).
  change (2 ^ 3) with 8. change (2 ^ 6) with 64. lia.
Qed.

(** Turns the boolean comparisons in the hypotheses into propositions. *)
Ltac tests_to_props :=
  repeat match goal with
         | H : (_ <? _) = true |- _ => apply N.ltb_lt in H
         | H : (_ <? _) = false |- _ => apply N.ltb_ge in H
         | H : (_ <=? _) = true |- _ => apply N.leb_le in H
         | H : (_ <=? _) = false |- _ => apply N.leb_gt in H
         | H : (_ =? _) = true |- _ => apply N.eqb_eq in H
         | H : (_ =? _) = false |- _ => apply N.eqb_neq in H
         end.

(** The rows of the table [first] for a byte that is not ASCII. *)
Lemma first_cases (b : N) :
  0x80 <= b ->
  first b = 0xF1 \/
  (first b = 0x02 /\ 0xC2 <= b < 0xE0) \/
  (first b = 0x13 /\ b = 0xE0) \/
  (first b = 0x03 /\ 0xE1 <= b <= 0xEF /\ b <> 0xED) \/
  (first b = 0x23 /\ b = 0xED) \/
  (first b = 0x34 /\ b = 0xF0) \/
  (first b = 0x04 /\ 0xF1 <= b <= 0xF3) \/
  (first b = 0x44 /\ b = 0xF4).
Proof.
  intros Hb. unfold first.
  repeat match goal with
         | |- context [if ?c then _ else _] => destruct c eqn:?
         end;
    tests_to_props; try lia; auto 20 with zarith;
    repeat (first [left; split; [reflexivity | lia] | right]); try (split; [reflexivity| lia]).
Qed.

(** The remainder of a number known to lie in one block of [k]. *)
Lemma mod_cont (b lo : N) (k : N) (q : N) :
  k <> 0 -> lo = q * k -> lo <= b < lo + k -> b mod k = b - lo.
Proof.
  intros Hk -> Hb. symmetry. apply (N.mod_unique b k q); lia.
Qed.

(** What [DecodeRuneInString] gives on a string whose first byte is not
    ASCII: an invalid encoding, or an encoding of two, three or four bytes that
    are all outside ASCII, with the range of the rune. *)
Lemma DecodeRune_lead (c0 : ascii) (t : string) :
  0x80 <= N_of_ascii c0 ->
  let '(r, size) := DecodeRuneInString (String c0 t) in
  (r = RuneError /\ size = 1%nat) \/
  (exists c1 t1, t = String c1 t1 /\ size = 2%nat /\ high c1 /\ r < 0x800) \/
  (exists c1 c2 t2,
      t = String c1 (String c2 t2) /\ size = 3%nat /\ high c1 /\ high c2 /\
      0xE0 <= N_of_ascii c0 <= 0xEF /\ N_of_ascii c1 <= 0xBF /\ N_of_ascii c2 <= 0xBF /\
      r = (N_of_ascii c0 - 0xE0) * 4096 + (N_of_ascii c1 - 0x80) * 64
          + (N_of_ascii c2 - 0x80)) \/
  (exists c1 c2 c3 t3,
      t = String c1 (String c2 (String c3 t3)) /\ size = 4%nat /\
      high c1 /\ high c2 /\ high c3 /\ 0x10000 <= r).
Proof.
  intros H0. unfold DecodeRuneInString, high.
  change (byte_at (String c0 t) 0) with (N_of_ascii c0).
  change (String.length (String c0 t) <? 1)%nat with false. cbv iota.
  destruct (first_cases _ H0) as
    [E | [[E R] | [[E R] | [[E R] | [[E R] | [[E R] | [[E R] | [E R]]]]]]]];
    rewrite E;
    repeat match goal with
           | |- context [N.to_nat (N.land ?x 7)] =>
               let v := eval vm_compute in (N.to_nat (N.land x 7)) in
               change (N.to_nat (N.land x 7)) with v
           | |- context [acceptRanges ?i] =>
               let v := eval vm_compute in (acceptRanges i) in
               change (acceptRanges i) with v
           | |- context [?a <=? ?b] =>
               let v := eval vm_compute in (a <=? b) in
               change (a <=? b) with v
           end;
    cbv iota beta;
    try (left; split; reflexivity).
  all: destruct t as [| c1 [| c2 [| c3 t3]]];
    cbn -[N.lor N.shiftl N.land N.ltb N_of_ascii];
    try (left; split; reflexivity).
  all: repeat match goal with
              | |- context [(?a <? ?b) || (?c <? ?d)] =>
                  destruct (a <? b) eqn:?; destruct (c <? d) eqn:?;
                  cbn -[N.lor N.shiftl N.land N.ltb N_of_ascii]
              end;
    try (left; split; reflexivity); tests_to_props.
  all: try (right; left; eexists _, _; rewrite rune2;
            pose proof (N.mod_lt (N_of_ascii c0) 32);
            pose proof (N.mod_lt (N_of_ascii c1) 64);
            repeat split; try reflexivity; lia).
  all: try (right; right; left; eexists _, _, _; rewrite rune3;
            rewrite (mod_cont (N_of_ascii c0) 0xE0 16 14) by lia;
            rewrite (mod_cont (N_of_ascii c1) 0x80 64 2) by lia;
            rewrite (mod_cont (N_of_ascii c2) 0x80 64 2) by lia;
            repeat split; try reflexivity; lia).
  all: right; right; right; eexists _, _, _, _; rewrite rune4;
    rewrite (mod_cont (N_of_ascii c0) 0xF0 8 30) by lia;
    rewrite (mod_cont (N_of_ascii c1) 0x80 64 2) by lia;
    rewrite (mod_cont (N_of_ascii c2) 0x80 64 2) by lia;
    rewrite (mod_cont (N_of_ascii c3) 0x80 64 2) by lia;
    repeat split; try reflexivity; lia.
Qed.

(** The values the table [first] holds. *)
Lemma first_values (b : N) :
  In (first b) [0xF0; 0xF1; 0x02; 0x13; 0x03; 0x23; 0x34; 0x04; 0x44].
Proof.
  unfold first.
  repeat match goal with
         | |- context [if ?c then _ else _] => destruct c
         end; simpl; tauto.
Qed.

(** Decoding looks at the first [UTFMax] bytes only. *)
Lemma DecodeRune_slice (s : string) :
  DecodeRuneInString (slice_to UTFMax s) = DecodeRuneInString s.
Proof.
  destruct s as [| c0 [| c1 [| c2 [| c3 t]]]]; try reflexivity.
  unfold DecodeRuneInString, UTFMax.
  cbn [slice_to].
  change (byte_at (String c0 _) 0) with (N_of_ascii c0).
  pose proof (first_values (N_of_ascii c0)) as Hx.
  simpl in Hx.
  repeat destruct Hx as [Hx | Hx]; try contradiction; rewrite <- Hx; reflexivity.
Qed.

(** An ASCII byte is its own rune. *)
Lemma DecodeRune_ascii (c : ascii) (t : string) :
  N_of_ascii c < 0x80 -> DecodeRuneInString (String c t) = (N_of_ascii c, 1%nat).
Proof.
  intros Hc. unfold DecodeRuneInString.
  change (byte_at (String c t) 0) with (N_of_ascii c).
  unfold first. apply N.ltb_lt in Hc. rewrite Hc. reflexivity.
Qed.

(** What the encoder writes for an ASCII byte, the byte itself or its
    escape, reads back as that byte. *)
Lemma unquote_ascii (c : ascii) (X : string) :
  N_of_ascii c < 0x80 ->
  unquote ((if htmlSafeSet (N_of_ascii c) then String c "" else escape_ascii c) ++ X)
  = prepend (String c "") (unquote X).
Proof.
  destruct c as [b0 b1 b2 b3 b4 b5 b6 b7].
  destruct b7; [intros H; exfalso; destruct b0, b1, b2, b3, b4, b5, b6; vm_compute in H; discriminate H |].
  intros _.
  destruct b0, b1, b2, b3, b4, b5, b6; reflexivity.
Qed.

(** A byte outside ASCII reads back as itself. *)
Lemma unquote_high (c : ascii) (X : string) :
  0x80 <= N_of_ascii c ->
  unquote (String c X) = prepend (String c "") (unquote X).
Proof.
  intros Hc. cbn [unquote].
  replace (N_of_ascii c =? 0x22) with false by (symmetry; apply N.eqb_neq; lia).
  replace (N_of_ascii c <? 0x20) with false by (symmetry; apply N.ltb_ge; lia).
  replace (N_of_ascii c =? 0x5C) with false by (symmetry; apply N.eqb_neq; lia).
  reflexivity.
Qed.

(** The three [\u] escapes the encoder writes for bytes outside ASCII. *)
Lemma unquote_replacement (X : string) :
  unquote (String backslash "ufffd" ++ X) = prepend replacement (unquote X).
Proof. reflexivity. Qed.

Lemma unquote_2028 (X : string) :
  unquote (String backslash "u202" ++ String (hex (N.land 0x2028 0xF)) "" ++ X)
  = prepend (EncodeRune 0x2028) (unquote X).
Proof. reflexivity. Qed.

Lemma unquote_2029 (X : string) :
  unquote (String backslash "u202" ++ String (hex (N.land 0x2029 0xF)) "" ++ X)
  = prepend (EncodeRune 0x2029) (unquote X).
Proof. reflexivity. Qed.

(** The equations of string concatenation. *)
Lemma append_nil (b : string) : ("" ++ b)%string = b.
Proof. reflexivity. Qed.

Lemma append_cons (c : ascii) (a b : string) :
  (String c a ++ b)%string = String c (a ++ b).
Proof. reflexivity. Qed.

Lemma string_app_assoc (a b c : string) : ((a ++ b) ++ c = a ++ (b ++ c))%string.
Proof.
  induction a as [| x a IH]; [reflexivity |].
  rewrite !append_cons, IH. reflexivity.
Qed.

(** One round of the loop of [appendString]. *)
Lemma appendString_loop_cons (fuel : nat) (c : ascii) (rest : string) :
  appendString_loop (S fuel) (String c rest) =
  if N_of_ascii c <? RuneSelf then
    ((if htmlSafeSet (N_of_ascii c) then String c "" else escape_ascii c)
     ++ appendString_loop fuel rest)%string
  else
    let '(r, size) := DecodeRuneInString (String c rest) in
    if (r =? RuneError) && (size =? 1)%nat
    then (String backslash "ufffd"
          ++ appendString_loop fuel (slice_from size (String c rest)))%string
    else if (r =? 0x2028) || (r =? 0x2029)
    then (String backslash "u202" ++ String (hex (N.land r 0xF)) ""
          ++ appendString_loop fuel (slice_from size (String c rest)))%string
    else (slice_to size (String c rest)
          ++ appendString_loop fuel (slice_from size (String c rest)))%string.
Proof.
  cbn [appendString_loop]. rewrite DecodeRune_slice.
  destruct (N_of_ascii c <? RuneSelf); [| reflexivity].
  destruct (htmlSafeSet (N_of_ascii c)); reflexivity.
Qed.

(** One round of the loop of [ValidString]. *)
Lemma ValidString_loop_cons (fuel : nat) (c : ascii) (rest : string) :
  ValidString_loop (S fuel) (String c rest) =
  let '(r, size) := DecodeRuneInString (String c rest) in
  if (r =? RuneError) && (size =? 1)%nat then false
  else ValidString_loop fuel (slice_from size (String c rest)).
Proof. reflexivity. Qed.

Lemma prepend_Some (p v rest : string) :
  prepend p (Some (v, rest)) = Some ((p ++ v)%string, rest).
Proof. reflexivity. Qed.

(** Reading back what the loop of [appendString] wrote, up to the closing
    quote: the reading succeeds and leaves what follows the quote; it gives the
    string written when that string is well-formed UTF-8. *)
Lemma unquote_appendString_loop (fuel : nat) :
  forall s rest : string,
    (String.length s <= fuel)%nat ->
    exists s' : string,
      unquote (appendString_loop fuel s ++ String dquote rest) = Some (s', rest) /\
      (ValidString_loop fuel s = true -> s' = s).
Proof.
  induction fuel as [| fuel IH]; intros s rest Hlen.
  - destruct s; [| simpl in Hlen; lia].
    exists "". split; reflexivity.
  - destruct s as [| c t]; [exists ""; split; reflexivity |].
    cbn [String.length] in Hlen.
    rewrite appendString_loop_cons, ValidString_loop_cons.
    destruct (N_of_ascii c <? RuneSelf) eqn:Hascii.
    + apply N.ltb_lt in Hascii. unfold RuneSelf in Hascii.
      rewrite string_app_assoc, unquote_ascii by assumption.
      rewrite DecodeRune_ascii by assumption.
      destruct (IH t rest ltac:(lia)) as [s' [Hs' Hvalid]].
      rewrite Hs', prepend_Some. eexists. split; [reflexivity |].
      replace (N_of_ascii c =? RuneError) with false
        by (symmetry; apply N.eqb_neq; unfold RuneError; lia).
      cbn [andb slice_from]. intros Hv. rewrite (Hvalid Hv). reflexivity.
    + apply N.ltb_ge in Hascii. unfold RuneSelf in Hascii.
      pose proof (DecodeRune_lead c t Hascii) as Hlead.
      destruct (DecodeRuneInString (String c t)) as [r size].
      destruct Hlead as
        [[-> ->]
        | [(c1 & t1 & -> & -> & H1 & Hr)
          | [(c1 & c2 & t2 & -> & -> & H1 & H2 & Hc & Hc1 & Hc2 & Hr)
            | (c1 & c2 & c3 & t3 & -> & -> & H1 & H2 & H3 & Hr)]]].
      * change ((RuneError =? RuneError) && (1 =? 1)%nat) with true. cbv iota.
        cbn [slice_from].
        rewrite string_app_assoc, unquote_replacement.
        destruct (IH t rest ltac:(lia)) as [s' [Hs' _]].
        rewrite Hs', prepend_Some. eexists. split; [reflexivity | discriminate].
      * replace (r =? RuneError) with false
          by (symmetry; apply N.eqb_neq; unfold RuneError; lia).
        replace (r =? 0x2028) with false by (symmetry; apply N.eqb_neq; lia).
        replace (r =? 0x2029) with false by (symmetry; apply N.eqb_neq; lia).
        cbn [andb orb slice_from slice_to]. rewrite !append_cons, append_nil.
        rewrite (unquote_high c) by assumption.
        rewrite (unquote_high c1) by assumption.
        cbn [String.length] in Hlen.
        destruct (IH t1 rest ltac:(lia)) as [s' [Hs' Hvalid]].
        rewrite Hs', !prepend_Some. eexists. split; [reflexivity |].
        intros Hv. rewrite (Hvalid Hv). reflexivity.
      * cbn [String.length] in Hlen.
        destruct (IH t2 rest ltac:(lia)) as [s' [Hs' Hvalid]].
        change (3 =? 1)%nat with false. rewrite andb_false_r.
        cbn [slice_from].
        destruct ((r =? 0x2028) || (r =? 0x2029)) eqn:Hsep.
        -- apply orb_true_iff in Hsep.
           assert (Hbytes : c = ascii_of_N 0xE2 /\ c1 = ascii_of_N 0x80 /\
                            (r = 0x2028 /\ c2 = ascii_of_N 0xA8 \/
                             r = 0x2029 /\ c2 = ascii_of_N 0xA9)).
           { unfold high in *.
             rewrite <- (ascii_N_embedding c), <- (ascii_N_embedding c1),
               <- (ascii_N_embedding c2).
             destruct Hsep as [Hsep | Hsep]; apply N.eqb_eq in Hsep;
               assert (N_of_ascii c = 0xE2) as -> by lia;
               assert (N_of_ascii c1 = 0x80) as -> by lia;
               [ assert (N_of_ascii c2 = 0xA8) as -> by lia
               | assert (N_of_ascii c2 = 0xA9) as -> by lia ];
               auto. }
           destruct Hbytes as (-> & -> & [[-> ->] | [-> ->]]).
           ++ rewrite !string_app_assoc, unquote_2028, Hs', prepend_Some. eexists.
              split; [reflexivity |].
              intros Hv. rewrite (Hvalid Hv). reflexivity.
           ++ rewrite !string_app_assoc, unquote_2029, Hs', prepend_Some. eexists.
              split; [reflexivity |].
              intros Hv. rewrite (Hvalid Hv). reflexivity.
        -- cbn [slice_to]. rewrite !append_cons, append_nil.
           rewrite (unquote_high c) by assumption.
           rewrite (unquote_high c1) by assumption.
           rewrite (unquote_high c2) by assumption.
           rewrite Hs', !prepend_Some. eexists. split; [reflexivity |].
           intros Hv. rewrite (Hvalid Hv). reflexivity.
      * cbn [String.length] in Hlen.
        destruct (IH t3 rest ltac:(lia)) as [s' [Hs' Hvalid]].
        change (4 =? 1)%nat with false. rewrite andb_false_r.
        replace (r =? 0x2028) with false by (symmetry; apply N.eqb_neq; lia).
        replace (r =? 0x2029) with false by (symmetry; apply N.eqb_neq; lia).
        cbn [orb slice_from slice_to]. rewrite !append_cons, append_nil.
        rewrite (unquote_high c) by assumption.
        rewrite (unquote_high c1) by assumption.
        rewrite (unquote_high c2) by assumption.
        rewrite (unquote_high c3) by assumption.
        rewrite Hs', !prepend_Some. eexists. split; [reflexivity |].
        intros Hv. rewrite (Hvalid Hv). reflexivity.
Qed.

(** The same for a whole string literal. *)
Lemma read_string_appendString (s rest : string) :
  exists s' : string,
    read_string (appendString s ++ rest) = Some (s', rest) /\
    (ValidString s = true -> s' = s).
Proof.
  destruct (unquote_appendString_loop (String.length s) s rest (le_n _))
    as [s' [Hs' Hvalid]].
  exists s'. split; [| exact Hvalid].
  unfold appendString. rewrite append_cons, string_app_assoc, append_cons, append_nil.
  exact Hs'.
Qed.

(** A character that is not white space is found where it stands. *)
Lemma expect_here (c : ascii) (X : string) :
  is_ws c = false -> expect c (String c X) = Some X.
Proof.
  intros Hc. unfold expect. cbn [skip_ws]. rewrite Hc, Ascii.eqb_refl. reflexivity.
Qed.

(** Three members written by the encoder read back as three members. *)
Lemma read_members_three (fuel : nat) (k1 v1 k2 v2 k3 v3 tail : string) :
  ValidString k1 = true -> ValidString k2 = true -> ValidString k3 = true ->
  exists v1' v2' v3' : string,
    read_members (S (S (S fuel)))
      (appendString k1 ++ ":" ++ appendString v1 ++ "," ++
       appendString k2 ++ ":" ++ appendString v2 ++ "," ++
       appendString k3 ++ ":" ++ appendString v3 ++ "}" ++ tail)
    = Some ([(k1, v1'); (k2, v2'); (k3, v3')], tail) /\
    (ValidString v1 = true -> v1' = v1) /\
    (ValidString v2 = true -> v2' = v2) /\
    (ValidString v3 = true -> v3' = v3).
Proof.
  intros Hk1 Hk2 Hk3.
  set (m3 := (appendString v3 ++ "}" ++ tail)%string).
  set (m2 := (appendString v2 ++ "," ++ appendString k3 ++ ":" ++ m3)%string).
  set (m1 := (appendString v1 ++ "," ++ appendString k2 ++ ":" ++ m2)%string).
  destruct (read_string_appendString k1 (":" ++ m1)) as [k1' [Ek1 Vk1]].
  destruct (read_string_appendString v1 ("," ++ appendString k2 ++ ":" ++ m2))
    as [v1' [Ev1 Vv1]].
  destruct (read_string_appendString k2 (":" ++ m2)) as [k2' [Ek2 Vk2]].
  destruct (read_string_appendString v2 ("," ++ appendString k3 ++ ":" ++ m3))
    as [v2' [Ev2 Vv2]].
  destruct (read_string_appendString k3 (":" ++ m3)) as [k3' [Ek3 Vk3]].
  destruct (read_string_appendString v3 ("}" ++ tail)) as [v3' [Ev3 Vv3]].
  rewrite (Vk1 Hk1) in Ek1. rewrite (Vk2 Hk2) in Ek2. rewrite (Vk3 Hk3) in Ek3.
  exists v1', v2', v3'. split; [| auto].
  cbn [read_members].
  rewrite Ek1. rewrite append_cons, append_nil, expect_here by reflexivity.
  fold m1. unfold m1 at 1. rewrite Ev1.
  rewrite append_cons, append_nil. cbn [skip_ws is_ws]. cbv beta iota.
  change (is_ws ",") with false. cbv iota.
  change (Ascii.eqb "," "}") with false. change (Ascii.eqb "," ",") with true. cbv iota.
  rewrite Ek2. rewrite append_cons, append_nil, expect_here by reflexivity.
  unfold m2 at 1. rewrite Ev2.
  rewrite append_cons, append_nil. cbn [skip_ws].
  change (is_ws ",") with false. cbv iota.
  change (Ascii.eqb "," "}") with false. change (Ascii.eqb "," ",") with true. cbv iota.
  rewrite Ek3. rewrite append_cons, append_nil, expect_here by reflexivity.
  unfold m3 at 1. rewrite Ev3.
  rewrite append_cons, append_nil. cbn [skip_ws].
  change (is_ws "}") with false. cbv iota.
  change (Ascii.eqb "}" "}") with true. cbv iota.
  reflexivity.
Qed.

(** A member has at least three characters. *)
Lemma length_appendString_app (s rest : string) :
  exists n : nat, String.length (appendString s ++ String ":" rest) = S (S (S n)).
Proof.
  unfold appendString. rewrite append_cons, string_app_assoc, append_cons, append_nil.
  cbn [String.length].
  generalize (appendString_loop (String.length s) s). intros l.
  induction l as [| c l [n IH]].
  - rewrite append_nil. cbn [String.length]. eauto.
  - rewrite append_cons. cbn [String.length]. rewrite IH. eauto.
Qed.

(** What [json.Marshal] writes for the struct reads back as an object of
    exactly the three members, in the order of the fields; a field that is
    well-formed UTF-8 reads back as itself. *)
Lemma json_read_object_Marshal (v : resultsPayload) :
  exists body result branch accessToken : string,
    json_Marshal v = inl body /\
    json_read_object body
    = Some [("result", result); ("branch", branch); ("accessToken", accessToken)] /\
    (ValidString (Result v) = true -> result = Result v) /\
    (ValidString (Branch v) = true -> branch = Branch v) /\
    (ValidString (AccessToken v) = true -> accessToken = AccessToken v).
Proof.
  destruct (length_appendString_app "result"
              (appendString (Result v)
               ++ "," ++ appendString "branch" ++ ":" ++ appendString (Branch v)
               ++ "," ++ appendString "accessToken" ++ ":"
               ++ appendString (AccessToken v) ++ "}")) as [n Hn].
  destruct (read_members_three n "result" (Result v) "branch" (Branch v)
              "accessToken" (AccessToken v) "" eq_refl eq_refl eq_refl)
    as (r & b & a & Hread & Hr & Hb & Ha).
  exists ("{" ++ appendString "result" ++ ":" ++ appendString (Result v)
          ++ "," ++ appendString "branch" ++ ":" ++ appendString (Branch v)
          ++ "," ++ appendString "accessToken" ++ ":" ++ appendString (AccessToken v)
          ++ "}"), r, b, a.
  split; [reflexivity |]. split; [| auto].
  unfold json_read_object.
  rewrite append_cons, append_nil, expect_here by reflexivity.
  match goal with
  | |- context [skip_ws ?X] =>
      assert (Hhead : exists Y, X = String dquote Y)
        by (unfold appendString at 1; rewrite append_cons; eauto);
      destruct Hhead as [Y HY]
  end.
  rewrite HY at 1. cbn [skip_ws].
  change (is_ws dquote) with false. cbv iota.
  change (Ascii.eqb dquote "}") with false. cbv iota.
  match type of Hn with
  | String.length ?Z = _ =>
      match goal with
      | |- context [read_members (String.length ?X) _] => change X with Z
      end
  end.
  rewrite Hn.
  match type of Hread with
  | read_members _ ?Z = _ =>
      match goal with
      | |- context [read_members _ ?X] => change X with Z
      end
  end.
  rewrite Hread. reflexivity.
Qed.

End Body.

(** One call of [ProcessSignature] makes at most one call of the transport,
    a POST with the JSON content type whose context has a timeout of ten
    seconds. *)
Lemma ProcessSignature_one_request
    (options : Options) (ext : Externals) (w w' : World) (r : option error)
    (jsonPayload repoName repoRef accessToken : string) (evs : list event) :
  ProcessSignature options ext jsonPayload repoName repoRef accessToken w = (w', r) ->
  trace w' = (trace w ++ evs)%list ->
  count is_publish evs <= 1 /\
  (forall req res,
      In (EvClientDo req res) evs ->
      Method req = "POST" /\
      Header req = [("Content-Type", "application/json")] /\
      Timeout req = Some (10 * Second)%Z).
Proof.
  unfold ProcessSignature, http_NewRequest. step.
  externals; intros [= <- <-]; simpl; rewrite <- ?app_assoc; simpl;
    intros Hevs%app_inv_head; subst evs; (split; [unfold count; simpl; lia |]);
    intros req res Hin; simpl in Hin;
    repeat match goal with
           | H : _ \/ _ |- _ => destruct H
           | H : False |- _ => destruct H
           | H : EvClientDo _ _ = EvClientDo _ _ |- _ => injection H as <- <-
           | H : _ = _ :> event |- _ => discriminate H
           end;
    auto.
Qed.

(** The body of every request [ProcessSignature] sends is what
    [json.Marshal] made of the struct. *)
Lemma ProcessSignature_sends_marshalled
    (options : Options) (ext : Externals) (w w' : World) (r : option error)
    (jsonPayload repoName repoRef accessToken body : string)
    (evs : list event) (req : Request) (res : Response + error) :
  json_Marshal (mkResultsPayload jsonPayload repoRef accessToken) = inl body ->
  ProcessSignature options ext jsonPayload repoName repoRef accessToken w = (w', r) ->
  trace w' = (trace w ++ evs)%list ->
  In (EvClientDo req res) evs ->
  ReqBody req = body.
Proof.
  intros [= <-]. unfold ProcessSignature, http_NewRequest. step.
  externals; intros [= <- <-]; simpl; rewrite <- ?app_assoc; simpl;
    intros Hevs%app_inv_head; subst evs; simpl;
    intros Hin;
    repeat match goal with
           | H : _ \/ _ |- _ => destruct H
           | H : False |- _ => destruct H
           | H : EvClientDo _ _ = EvClientDo _ _ |- _ => injection H as <- <-
           | H : _ = _ :> event |- _ => discriminate H
           end;
    reflexivity.
Qed.

(** C4, as the code has it: for a payload that is well-formed UTF-8, the
    body [ProcessSignature] makes, read as JSON, is an object of exactly the
    three members [result], [branch] and [accessToken], and [result] is the
    payload, byte for byte; it is the body of every request sent. *)
Theorem ProcessSignature_body_three_fields
    (options : Options) (ext : Externals) (w w' : World) (r : option error)
    (jsonPayload repoName repoRef accessToken : string) (evs : list event) :
  ValidString jsonPayload = true ->
  ProcessSignature options ext jsonPayload repoName repoRef accessToken w = (w', r) ->
  trace w' = (trace w ++ evs)%list ->
  exists body branch token : string,
    json_Marshal (mkResultsPayload jsonPayload repoRef accessToken) = inl body /\
    json_read_object body
    = Some [("result", jsonPayload); ("branch", branch); ("accessToken", token)] /\
    (ValidString repoRef = true -> branch = repoRef) /\
    (ValidString accessToken = true -> token = accessToken) /\
    (forall req res, In (EvClientDo req res) evs -> ReqBody req = body).
Proof.
  intros Hvalid Hrun Htrace.
  destruct (json_read_object_Marshal (mkResultsPayload jsonPayload repoRef accessToken))
    as (body & result & branch & token & Hbody & Hread & Hr & Hb & Ht).
  simpl in Hr, Hb, Ht. rewrite (Hr Hvalid) in Hread.
  exists body, branch, token. repeat split; try assumption.
  intros req res Hin.
  exact (ProcessSignature_sends_marshalled options ext w w' r jsonPayload repoName
           repoRef accessToken body evs req res Hbody Hrun Htrace Hin).
Qed.

(** * Examples *)

Lemma env_wf_empty : env_wf ∅.
Proof. intros k v H. rewrite lookup_empty in H. discriminate. Qed.

Lemma env_wf_insert (key value : string) (e : Env) :
  valid_key key = true -> valid_value value = true -> env_wf e ->
  env_wf (<[key := value]> e).
Proof.
  intros Hk Hv Hwf k v H. apply lookup_insert_Some in H.
  destruct H as [[<- <-] | [_ H]]; [auto | exact (Hwf _ _ H)].
Qed.

Lemma action_env_wf : env_wf action_env.
Proof.
  unfold action_env.
  repeat (apply env_wf_insert; [reflexivity | reflexivity |]).
  apply env_wf_empty.
Qed.

Lemma GetJSONScorecardResults_restores_witness :
  let w' := fst (GetJSONScorecardResults action_options healthy (start action_sys)) in
  Getenv "INPUT_RESULTS_FILE" (env (sys w')) = "results.sarif" /\
  Getenv "INPUT_RESULTS_FORMAT" (env (sys w')) = "sarif".
Proof.
  apply (GetJSONScorecardResults_restores action_options healthy (start action_sys) _
           (snd (GetJSONScorecardResults action_options healthy (start action_sys)))).
  - reflexivity.
  - reflexivity.
  - exact action_env_wf.
  - apply surjective_pairing.
Defined.

Lemma GetJSONScorecardResults_sets_unset_witness :
  let w := start (mkSys ∅ ∅) in
  let w' := fst (GetJSONScorecardResults action_options healthy w) in
  LookupEnv "INPUT_RESULTS_FORMAT" (env (sys w)) = None /\
  LookupEnv "INPUT_RESULTS_FORMAT" (env (sys w')) = Some "" /\
  Getenv "INPUT_RESULTS_FORMAT" (env (sys w)) = "" /\
  Getenv "INPUT_RESULTS_FORMAT" (env (sys w')) = "".
Proof.
  apply (GetJSONScorecardResults_sets_unset action_options healthy
           (start (mkSys ∅ ∅)) _
           (snd (GetJSONScorecardResults action_options healthy (start (mkSys ∅ ∅))))).
  - right. reflexivity.
  - reflexivity.
  - reflexivity.
  - apply surjective_pairing.
Defined.

Lemma Setenv_never_the_error_witness :
  exists e0,
    Errorf_w "error signing payload" no_token = Errorf_w "error signing payload" e0 /\
    last (trace (fst (SignScorecardResult signer_fails "results.json" (start action_sys))))
    = Some (EvSignBlobCmd "results.json" (Some e0)).
Proof.
  apply (proj1 (proj2 (Setenv_never_the_error action_options signer_fails
                         (start action_sys)))
           "results.json"
           (fst (SignScorecardResult signer_fails "results.json" (start action_sys)))).
  reflexivity.
Defined.

Lemma main_stops_at_first_failure_witness :
  let run := main action_options rescan_fails (start action_sys) in
  count is_sign (trace (fst run)) = 0 /\
  count is_publish (trace (fst run)) = 0 /\
  exists e, snd run = Fatal ("error generating json scorecard results: " ++ Error e).
Proof.
  apply (proj1 (main_stops_at_first_failure action_options rescan_fails action_sys
                  _ _ (surjective_pairing _))).
  left. exists scan_error. vm_compute. tauto.
Defined.

Lemma main_reads_publish_flag_once_witness :
  let run := main action_options healthy (start action_sys) in
  let w1 := mkWorld (fst (cli_Execute_ext healthy action_sys))
              [EvCliExecute None; EvGetenv "INPUT_PUBLISH_RESULTS" "true"] in
  count is_secondary_scan (trace (fst run)) = 1 /\
  count is_primary_scan (trace (fst run)) = 1 /\
  count (reads "INPUT_PUBLISH_RESULTS") (trace (fst run)) = 1 /\
  exists (w2 : World) (r1 : string + error),
    GetJSONScorecardResults action_options healthy w1 = (w2, r1).
Proof.
  intros run w1.
  pose proof (main_reads_publish_flag_once action_options healthy action_sys
                (fst (cli_Execute_ext healthy action_sys))
                (fst run) (snd run)) as H.
  destruct H as (Hscan & _ & Hbranch & Hprimary & Hreads).
  - repeat constructor; discriminate.
  - reflexivity.
  - apply surjective_pairing.
  - split; [apply Hscan; reflexivity |].
    split; [assumption |]. split; [assumption |].
    destruct (Hbranch eq_refl) as (w2 & r1 & Hjson & _).
    exists w2, r1. exact Hjson.
Defined.

(** C6, as the claim has it, fails: when the primary scan fails the driver
    ends before it reads the flag, so with the flag set to ["true"] it has
    read it no time and has not entered the branch. *)
Lemma main_publish_flag_counterexample :
  ~ (forall (options : Options) (ext : Externals) (s : Sys) (w : World) (out : exit),
        Forall (fun key => key <> EnvInputPublishResults options)
          [EnvInputResultsFile options; EnvInputResultsFormat options;
           EnvGithubRepository options; EnvGithubRef options;
           EnvInputRepoToken options; EnvInputInternalPublishBaseURL options] ->
        main options ext (start s) = (w, out) ->
        let flag := Getenv (EnvInputPublishResults options)
                      (env (fst (cli_Execute_ext ext s))) in
        (count is_secondary_scan (trace w) = 1 <-> flag = "true") /\
        count (reads (EnvInputPublishResults options)) (trace w) = 1).
Proof.
  intros H.
  destruct (H action_options cli_fails action_sys
              (fst (main action_options cli_fails (start action_sys)))
              (snd (main action_options cli_fails (start action_sys))))
    as [Hbranch Hreads].
  - repeat constructor; discriminate.
  - apply surjective_pairing.
  - vm_compute in Hreads. discriminate Hreads.
Qed.

Lemma ProcessSignature_created_only_witness :
  let run := ProcessSignature action_options answers_200 "{}" "octo/repo"
               "refs/heads/main" "ghs_0123" (start action_sys) in
  (snd run = None <-> StatusCode conflict = StatusCreated) /\
  (StatusCode conflict <> StatusCreated ->
   snd run = Some (response_error conflict "result already published") /\
   Contains (Error (response_error conflict "result already published"))
     "result already published" = true).
Proof.
  intros run.
  eapply (ProcessSignature_created_only action_options answers_200 (start action_sys)
            (fst run) (snd run) "{}" "octo/repo" "refs/heads/main" "ghs_0123"
            _ _ conflict).
  - apply surjective_pairing.
  - reflexivity.
  - right. left. reflexivity.
Defined.

(** C2, as the claim has it, fails: a response with status 500 whose body
    breaks off while it is read gives an error that says so, without the
    text received. *)
Lemma ProcessSignature_body_text_counterexample :
  ~ (forall (options : Options) (ext : Externals) (w w' : World) (r : option error)
            (jsonPayload repoName repoRef accessToken : string)
            (evs : list event) (req : Request) (resp : Response),
        ProcessSignature options ext jsonPayload repoName repoRef accessToken w = (w', r) ->
        trace w' = (trace w ++ evs)%list ->
        In (EvClientDo req (inl resp)) evs ->
        (r = None <-> StatusCode resp = StatusCreated) /\
        (StatusCode resp <> StatusCreated ->
         exists e, r = Some e /\ Contains (Error e) (fst (Body resp)) = true)).
Proof.
  intros H.
  pose (run := ProcessSignature action_options answers_broken_off "{}" "octo/repo"
                 "refs/heads/main" "ghs_0123" (start action_sys)).
  destruct (H action_options answers_broken_off (start action_sys) (fst run) (snd run)
              "{}" "octo/repo" "refs/heads/main" "ghs_0123" _ _ broken_off
              (surjective_pairing _) eq_refl (or_intror (or_introl eq_refl)))
    as [_ Hbody].
  destruct Hbody as [e [He Hcontains]]; [discriminate |].
  injection He as <-. vm_compute in Hcontains. discriminate.
Qed.

Lemma ProcessSignature_endpoint_witness :
  let run := ProcessSignature action_options healthy "{}" "octo/repo"
               "refs/heads/main" "ghs_0123" (start action_sys) in
  exists req,
    sent (trace (fst run)) = [req] /\
    Method req = "POST" /\
    URL req = "https://api.example.com/projects/github.com/octo/repo".
Proof.
  intros run.
  apply (ProcessSignature_endpoint action_options healthy (start action_sys)
           (fst run) (snd run) "{}" "refs/heads/main" "ghs_0123").
  - reflexivity.
  - reflexivity.
  - reflexivity.
  - apply surjective_pairing.
Defined.

Lemma ProcessSignature_fails_before_transport_witness :
  let run := ProcessSignature action_options parser_fails "{}" "octo/repo"
               "refs/heads/main" "ghs_0123" (start action_sys) in
  snd run = Some (Errorf_w "parsing Scorecard API endpoint" bad_url) /\
  sent (trace (fst run)) = [].
Proof.
  intros run.
  apply (proj1 (proj2 (ProcessSignature_fails_before_transport action_options
                         parser_fails (start action_sys) (fst run) (snd run)
                         "{}" "octo/repo" "refs/heads/main" "ghs_0123"
                         (surjective_pairing _)))).
  reflexivity.
Defined.

Lemma ProcessSignature_body_three_fields_witness :
  exists body branch token : string,
    json_Marshal (mkResultsPayload "{}" "refs/heads/main" "ghs_0123") = inl body /\
    json_read_object body
    = Some [("result", "{}"); ("branch", branch); ("accessToken", token)] /\
    (ValidString "refs/heads/main" = true -> branch = "refs/heads/main") /\
    (ValidString "ghs_0123" = true -> token = "ghs_0123") /\
    (forall req res,
        In (EvClientDo req res)
          (trace (fst (ProcessSignature action_options healthy "{}" "octo/repo"
                         "refs/heads/main" "ghs_0123" (start action_sys)))) ->
        ReqBody req = body).
Proof.
  apply (ProcessSignature_body_three_fields action_options healthy (start action_sys)
           (fst (ProcessSignature action_options healthy "{}" "octo/repo"
                   "refs/heads/main" "ghs_0123" (start action_sys)))
           (snd (ProcessSignature action_options healthy "{}" "octo/repo"
                   "refs/heads/main" "ghs_0123" (start action_sys)))
           "{}" "octo/repo" "refs/heads/main" "ghs_0123").
  - reflexivity.
  - apply surjective_pairing.
  - reflexivity.
Defined.

(** C4, as the claim has it, fails: [json.Marshal] writes a byte that is not
    UTF-8 as the escape of U+FFFD, so the [result] read back from the body made
    for the one-byte payload [0xFF] is the three bytes [EF BF BD]. *)
Lemma ProcessSignature_body_counterexample :
  ~ (forall (options : Options) (ext : Externals) (w w' : World) (r : option error)
            (jsonPayload repoName repoRef accessToken : string) (evs : list event),
        ProcessSignature options ext jsonPayload repoName repoRef accessToken w = (w', r) ->
        trace w' = (trace w ++ evs)%list ->
        exists body branch token : string,
          json_Marshal (mkResultsPayload jsonPayload repoRef accessToken) = inl body /\
          json_read_object body
          = Some [("result", jsonPayload); ("branch", branch); ("accessToken", token)] /\
          (forall req res, In (EvClientDo req res) evs -> ReqBody req = body)).
Proof.
  intros H.
  pose (run := ProcessSignature action_options healthy not_utf8 "octo/repo"
                 "refs/heads/main" "ghs_0123" (start action_sys)).
  destruct (H action_options healthy (start action_sys) (fst run) (snd run)
              not_utf8 "octo/repo" "refs/heads/main" "ghs_0123" _
              (surjective_pairing _) eq_refl)
    as (body & branch & token & Hbody & Hread & _).
  injection Hbody as <-. vm_compute in Hread. discriminate Hread.
Qed.

(** * Further properties of the workflow *)

(** ** The scan run again *)

Lemma Getenv_Setenv_ne (key value k' : string) (e : Env) :
  key <> k' -> Getenv k' (fst (Setenv key value e)) = Getenv k' e.
Proof.
  intros Hne. unfold Getenv, LookupEnv.
  rewrite Setenv_lookup_ne by assumption. reflexivity.
Qed.

(** The scan run again sees the results file forced to [results.json] and
    the format forced to [json], every other variable and every file as they
    were; its result is the one recorded in the trace. *)
Theorem GetJSONScorecardResults_forces_json
    (options : Options) (ext : Externals) (w w' : World) (r : string + error) :
  valid_key (EnvInputResultsFile options) = true ->
  valid_key (EnvInputResultsFormat options) = true ->
  EnvInputResultsFile options <> EnvInputResultsFormat options ->
  GetJSONScorecardResults options ext w = (w', r) ->
  let s := rescan_input options (sys w) in
  Getenv (EnvInputResultsFile options) (env s) = "results.json" /\
  Getenv (EnvInputResultsFormat options) (env s) = "json" /\
  (forall key, key <> EnvInputResultsFile options ->
               key <> EnvInputResultsFormat options ->
               env s !! key = env (sys w) !! key) /\
  fs s = fs (sys w) /\
  In (EvRunExecute (snd (run_Execute_ext ext s))) (trace w').
Proof.
  intros Hfile Hformat Hne Hrun s. subst s. unfold rescan_input. simpl.
  repeat split.
  - apply Getenv_lookup; [assumption |].
    rewrite Setenv_lookup_ne by congruence.
    apply Setenv_lookup_eq; [assumption | reflexivity].
  - apply Getenv_lookup; [assumption |].
    apply Setenv_lookup_eq; [assumption | reflexivity].
  - intros key Hk1 Hk2. rewrite !Setenv_lookup_ne by congruence. reflexivity.
  - revert Hrun.
    unfold GetJSONScorecardResults, GetJSONScorecardResults_body. step.
    externals; intros [= <- <-]; simpl; rewrite !in_app_iff; simpl; tauto.
Qed.

Lemma GetJSONScorecardResults_forces_json_witness :
  let s := rescan_input action_options action_sys in
  Getenv "INPUT_RESULTS_FILE" (env s) = "results.json" /\
  Getenv "INPUT_RESULTS_FORMAT" (env s) = "json" /\
  (forall key, key <> "INPUT_RESULTS_FILE" -> key <> "INPUT_RESULTS_FORMAT" ->
               env s !! key = action_env !! key) /\
  fs s = ∅ /\
  In (EvRunExecute (snd (run_Execute_ext healthy s)))
     (trace (fst (GetJSONScorecardResults action_options healthy (start action_sys)))).
Proof.
  apply (GetJSONScorecardResults_forces_json action_options healthy (start action_sys)
           (fst (GetJSONScorecardResults action_options healthy (start action_sys)))
           (snd (GetJSONScorecardResults action_options healthy (start action_sys)))).
  - reflexivity.
  - reflexivity.
  - discriminate.
  - apply surjective_pairing.
Defined.

(** Takes the cases of every [os.Setenv] met in the goal. *)
Ltac setenvs :=
  repeat match goal with
         | |- context [Setenv ?k ?v ?m] =>
             destruct (Setenv k v m) as [? ?]; simpl
         end.

(** When the scan leaves the results-file variable as it was forced, a payload
    returned by [GetJSONScorecardResults] is the content of [results.json] on
    disk when the function returns, and the scan has succeeded. *)
Theorem GetJSONScorecardResults_payload_on_disk
    (options : Options) (ext : Externals) (w w' : World) (jsonPayload : string) :
  valid_key (EnvInputResultsFile options) = true ->
  EnvInputResultsFile options <> EnvInputResultsFormat options ->
  (let run := run_Execute_ext ext (rescan_input options (sys w)) in
   Getenv (EnvInputResultsFile options) (env (fst run)) =
   Getenv (EnvInputResultsFile options) (env (rescan_input options (sys w)))) ->
  GetJSONScorecardResults options ext w = (w', inl jsonPayload) ->
  fs (sys w') !! "results.json" = Some jsonPayload /\
  snd (run_Execute_ext ext (rescan_input options (sys w))) = None.
Proof.
  intros Hfile Hne Hkeep.
  assert (Hforced : Getenv (EnvInputResultsFile options)
                      (env (rescan_input options (sys w))) = "results.json").
  { unfold rescan_input. simpl. apply Getenv_lookup; [assumption |].
    rewrite Setenv_lookup_ne by congruence.
    apply Setenv_lookup_eq; [assumption | reflexivity]. }
  cbv zeta in Hkeep. rewrite Hforced in Hkeep. clear Hforced. revert Hkeep.
  unfold rescan_input.
  unfold GetJSONScorecardResults, GetJSONScorecardResults_body. step.
  destruct (Setenv (EnvInputResultsFile options) "results.json" (env (sys w)))
    as [e1 r1]. simpl.
  destruct (Setenv (EnvInputResultsFormat options) "json" e1) as [e2 r2]. simpl.
  destruct (run_Execute_ext ext {| env := e2; fs := fs (sys w) |})
    as [s3 [e |]]; simpl; intros Hkeep.
  - setenvs; intros H; inversion H.
  - rewrite Hkeep.
    destruct (fs s3 !! "results.json") as [data |] eqn:Hdata; simpl;
      setenvs; intros H; inversion H; subst; simpl; auto.
Qed.

Lemma GetJSONScorecardResults_payload_on_disk_witness :
  fs (sys (fst (GetJSONScorecardResults action_options healthy (start action_sys))))
    !! "results.json" = Some "{}" /\
  snd (run_Execute_ext healthy (rescan_input action_options (sys (start action_sys))))
  = None.
Proof.
  apply (GetJSONScorecardResults_payload_on_disk action_options healthy
           (start action_sys)
           (fst (GetJSONScorecardResults action_options healthy (start action_sys)))
           "{}").
  - reflexivity.
  - discriminate.
  - reflexivity.
  - reflexivity.
Defined.

(** Apart from the two variables it restores, [GetJSONScorecardResults]
    leaves the system as the scan left it: every other variable and every
    file. *)
Theorem GetJSONScorecardResults_frame
    (options : Options) (ext : Externals) (w w' : World) (r : string + error) :
  GetJSONScorecardResults options ext w = (w', r) ->
  let after_scan := fst (run_Execute_ext ext (rescan_input options (sys w))) in
  fs (sys w') = fs after_scan /\
  forall key, key <> EnvInputResultsFile options ->
              key <> EnvInputResultsFormat options ->
              env (sys w') !! key = env after_scan !! key.
Proof.
  unfold rescan_input.
  unfold GetJSONScorecardResults, GetJSONScorecardResults_body. step.
  destruct (Setenv (EnvInputResultsFile options) "results.json" (env (sys w)))
    as [e1 r1]. simpl.
  destruct (Setenv (EnvInputResultsFormat options) "json" e1) as [e2 r2]. simpl.
  destruct (run_Execute_ext ext {| env := e2; fs := fs (sys w) |})
    as [s3 [e |]]; simpl;
    [| destruct (fs s3 !! _); simpl ].
  all: repeat match goal with
              | |- context [Setenv ?k ?v ?m] =>
                  let H := fresh "Hframe" in
                  pose proof (Setenv_lookup_ne k v m) as H;
                  destruct (Setenv k v m) as [? ?]; simpl in *
              end.
  all: intros [= <- <-]; simpl; (split; [reflexivity |]).
  all: intros key Hk1 Hk2; rewrite Hframe0, Hframe by congruence; reflexivity.
Qed.

Lemma GetJSONScorecardResults_frame_witness :
  let w' := fst (GetJSONScorecardResults action_options healthy (start action_sys)) in
  let after_scan :=
    fst (run_Execute_ext healthy (rescan_input action_options action_sys)) in
  fs (sys w') = fs after_scan /\
  forall key, key <> "INPUT_RESULTS_FILE" -> key <> "INPUT_RESULTS_FORMAT" ->
              env (sys w') !! key = env after_scan !! key.
Proof.
  apply (GetJSONScorecardResults_frame action_options healthy (start action_sys)
           (fst (GetJSONScorecardResults action_options healthy (start action_sys)))
           (snd (GetJSONScorecardResults action_options healthy (start action_sys)))).
  apply surjective_pairing.
Defined.

(** When the scan run again fails, [GetJSONScorecardResults] reads no file:
    it returns the scan's error, wrapped, after the four calls of [os.Setenv]
    (two to force the settings, two to restore them). *)
Theorem GetJSONScorecardResults_scan_failure
    (options : Options) (ext : Externals) (w w' : World) (r : string + error)
    (evs : list event) (e : error) :
  GetJSONScorecardResults options ext w = (w', r) ->
  trace w' = (trace w ++ evs)%list ->
  In (EvRunExecute (Some e)) evs ->
  r = inr (Errorf_w "error during command execution" e) /\
  count is_read_file evs = 0 /\
  count is_setenv evs = 4.
Proof.
  unfold GetJSONScorecardResults, GetJSONScorecardResults_body. step.
  externals; intros [= <- <-]; simpl; rewrite <- ?app_assoc; simpl;
    intros Hevs%app_inv_head; subst evs; simpl; intros Hin;
    repeat match goal with
           | H : _ \/ _ |- _ => destruct H
           | H : False |- _ => destruct H
           | H : EvRunExecute _ = EvRunExecute _ |- _ => injection H as <-
           | H : _ = _ :> event |- _ => discriminate H
           end;
    auto.
Qed.

Lemma GetJSONScorecardResults_scan_failure_witness :
  let run := GetJSONScorecardResults action_options rescan_fails (start action_sys) in
  snd run = inr (Errorf_w "error during command execution" scan_error) /\
  count is_read_file (trace (fst run)) = 0 /\
  count is_setenv (trace (fst run)) = 4.
Proof.
  intros run.
  apply (GetJSONScorecardResults_scan_failure action_options rescan_fails
           (start action_sys) (fst run) (snd run) (trace (fst run)) scan_error).
  - apply surjective_pairing.
  - reflexivity.
  - vm_compute. tauto.
Defined.

(** ** The signer *)

(** [SignScorecardResult] calls the signer once, on the path given, in a
    system where [COSIGN_EXPERIMENTAL] is [true] and every other variable and
    every file are as before; it leaves the system as the signer leaves it
    (the variable is not reset), and returns [nil] exactly when the signer
    does. *)
Theorem SignScorecardResult_calls_signer
    (ext : Externals) (file : string) (w w' : World) (r : option error)
    (evs : list event) :
  SignScorecardResult ext file w = (w', r) ->
  trace w' = (trace w ++ evs)%list ->
  let s := signer_input (sys w) in
  Getenv "COSIGN_EXPERIMENTAL" (env s) = "true" /\
  (forall key, key <> "COSIGN_EXPERIMENTAL" -> env s !! key = env (sys w) !! key) /\
  fs s = fs (sys w) /\
  sys w' = fst (SignBlobCmd_ext ext file s) /\
  (r = None <-> snd (SignBlobCmd_ext ext file s) = None) /\
  evs = [EvSetenv "COSIGN_EXPERIMENTAL" "true" None;
         EvSignBlobCmd file (snd (SignBlobCmd_ext ext file s))].
Proof.
  intros Hrun Htrace s. subst s. unfold signer_input.
  rewrite Setenv_ok by reflexivity. simpl.
  split; [apply Getenv_lookup; [reflexivity | apply lookup_insert_eq] |].
  split; [intros key Hkey; apply lookup_insert_ne; congruence |].
  split; [reflexivity |].
  revert Hrun Htrace. unfold SignScorecardResult. step.
  destruct (SignBlobCmd_ext ext file _) as [s' [e0 |]]; simpl;
    intros [= <- <-]; simpl; rewrite <- ?app_assoc; simpl;
    intros Hevs%app_inv_head; subst evs;
    (split; [reflexivity |]); (split; [| reflexivity]);
    split; congruence.
Qed.

Lemma SignScorecardResult_calls_signer_witness :
  let run := SignScorecardResult healthy "results.json" (start action_sys) in
  let s := signer_input action_sys in
  Getenv "COSIGN_EXPERIMENTAL" (env s) = "true" /\
  (forall key, key <> "COSIGN_EXPERIMENTAL" -> env s !! key = action_env !! key) /\
  fs s = ∅ /\
  sys (fst run) = fst (SignBlobCmd_ext healthy "results.json" s) /\
  (snd run = None <-> snd (SignBlobCmd_ext healthy "results.json" s) = None) /\
  trace (fst run) = [EvSetenv "COSIGN_EXPERIMENTAL" "true" None;
                     EvSignBlobCmd "results.json"
                       (snd (SignBlobCmd_ext healthy "results.json" s))].
Proof.
  intros run.
  apply (SignScorecardResult_calls_signer healthy "results.json" (start action_sys)
           (fst run) (snd run) (trace (fst run))).
  - apply surjective_pairing.
  - reflexivity.
Defined.

(** ** The publisher *)

(** Finds an event in a trace written out. *)
Ltac find_event := simpl; repeat (first [left; reflexivity | right]).

(** Splits the hypotheses on membership in a trace written out. *)
Ltac in_trace :=
  repeat match goal with
         | H : _ \/ _ |- _ => destruct H
         | H : False |- _ => destruct H
         | H : EvClientDo _ _ = EvClientDo _ _ |- _ => injection H as <- <-
         | H : EvGetenv _ _ = EvGetenv _ _ |- _ => injection H as <- <-
         | H : EvSignBlobCmd _ _ = EvSignBlobCmd _ _ |- _ => injection H as <- <-
         | H : _ = _ :> event |- _ => discriminate H
         | H : exists _, _ |- _ => destruct H
         | H : _ /\ _ |- _ => destruct H
         end.

(** Runs [ProcessSignature] through all the cases of its collaborators and
    names the events it has added. *)
Ltac publish_cases evs :=
  unfold ProcessSignature, http_NewRequest; step;
  externals; intros [= <- <-]; simpl; rewrite <- ?app_assoc; simpl;
  intros Hevs%app_inv_head; subst evs; simpl.

(** [ProcessSignature] returns [nil] exactly when the transport has answered
    with status 201: no failure before or in the transport, and no other
    status, gives [nil]. *)
Theorem ProcessSignature_nil_iff_created
    (options : Options) (ext : Externals) (w w' : World) (r : option error)
    (jsonPayload repoName repoRef accessToken : string) (evs : list event) :
  ProcessSignature options ext jsonPayload repoName repoRef accessToken w = (w', r) ->
  trace w' = (trace w ++ evs)%list ->
  r = None <->
  exists req resp, In (EvClientDo req (inl resp)) evs /\ StatusCode resp = StatusCreated.
Proof.
  publish_cases evs;
    repeat match goal with
           | H : (_ =? _)%Z = true |- _ => apply Z.eqb_eq in H
           | H : (_ =? _)%Z = false |- _ => apply Z.eqb_neq in H
           end;
    (split; [intros Hr; try discriminate Hr; eauto 6
            | intros Hin; simpl in Hin; in_trace; first [reflexivity | contradiction]]).
Qed.

Lemma ProcessSignature_nil_iff_created_witness :
  let run := ProcessSignature action_options healthy "{}" "octo/repo"
               "refs/heads/main" "ghs_0123" (start action_sys) in
  snd run = None <->
  exists req resp,
    In (EvClientDo req (inl resp)) (trace (fst run)) /\ StatusCode resp = StatusCreated.
Proof.
  intros run.
  apply (ProcessSignature_nil_iff_created action_options healthy (start action_sys)
           (fst run) (snd run) "{}" "octo/repo" "refs/heads/main" "ghs_0123"
           (trace (fst run))).
  - apply surjective_pairing.
  - reflexivity.
Defined.

(** [ProcessSignature] reads the response body at most once, and only when
    an answer with a status other than 201 has arrived: not after 201, not
    after a transport error, not when no request was sent. *)
Theorem ProcessSignature_reads_body_on_failure_only
    (options : Options) (ext : Externals) (w w' : World) (r : option error)
    (jsonPayload repoName repoRef accessToken : string) (evs : list event) :
  ProcessSignature options ext jsonPayload repoName repoRef accessToken w = (w', r) ->
  trace w' = (trace w ++ evs)%list ->
  count is_read_all evs <= 1 /\
  (count is_read_all evs = 1 <->
   exists req resp,
     In (EvClientDo req (inl resp)) evs /\ StatusCode resp <> StatusCreated).
Proof.
  publish_cases evs;
    repeat match goal with
           | H : (_ =? _)%Z = true |- _ => apply Z.eqb_eq in H
           | H : (_ =? _)%Z = false |- _ => apply Z.eqb_neq in H
           end;
    unfold count; simpl; (split; [lia |]);
    (split; [intros Hc; try discriminate Hc; eauto 6
            | intros Hin; simpl in Hin; in_trace; first [reflexivity | contradiction]]).
Qed.

Lemma ProcessSignature_reads_body_on_failure_only_witness :
  let run := ProcessSignature action_options answers_200 "{}" "octo/repo"
               "refs/heads/main" "ghs_0123" (start action_sys) in
  count is_read_all (trace (fst run)) <= 1 /\
  (count is_read_all (trace (fst run)) = 1 <->
   exists req resp,
     In (EvClientDo req (inl resp)) (trace (fst run)) /\
     StatusCode resp <> StatusCreated).
Proof.
  intros run.
  apply (ProcessSignature_reads_body_on_failure_only action_options answers_200
           (start action_sys) (fst run) (snd run) "{}" "octo/repo" "refs/heads/main"
           "ghs_0123" (trace (fst run))).
  - apply surjective_pairing.
  - reflexivity.
Defined.

(** [ProcessSignature] changes neither the environment nor the files; it
    sets no variable and reads one, the base URL of the API, once. *)
Theorem ProcessSignature_frame
    (options : Options) (ext : Externals) (w w' : World) (r : option error)
    (jsonPayload repoName repoRef accessToken : string) (evs : list event) :
  ProcessSignature options ext jsonPayload repoName repoRef accessToken w = (w', r) ->
  trace w' = (trace w ++ evs)%list ->
  sys w' = sys w /\
  count is_setenv evs = 0 /\
  (forall key value,
      In (EvGetenv key value) evs ->
      key = EnvInputInternalPublishBaseURL options /\
      value = Getenv (EnvInputInternalPublishBaseURL options) (env (sys w))) /\
  count (reads (EnvInputInternalPublishBaseURL options)) evs = 1.
Proof.
  publish_cases evs; unfold count; simpl; rewrite String.eqb_refl; simpl;
    (split; [reflexivity |]); (split; [reflexivity |]); (split; [| reflexivity]);
    intros key value Hin; in_trace; auto.
Qed.

Lemma ProcessSignature_frame_witness :
  let run := ProcessSignature action_options healthy "{}" "octo/repo"
               "refs/heads/main" "ghs_0123" (start action_sys) in
  sys (fst run) = action_sys /\
  count is_setenv (trace (fst run)) = 0 /\
  (forall key value,
      In (EvGetenv key value) (trace (fst run)) ->
      key = "INPUT_INTERNAL_PUBLISH_BASE_URL" /\ value = "https://api.example.com") /\
  count (reads "INPUT_INTERNAL_PUBLISH_BASE_URL") (trace (fst run)) = 1.
Proof.
  intros run.
  apply (ProcessSignature_frame action_options healthy (start action_sys)
           (fst run) (snd run) "{}" "octo/repo" "refs/heads/main" "ghs_0123"
           (trace (fst run))).
  - apply surjective_pairing.
  - reflexivity.
Defined.

Lemma ProcessSignature_one_request_witness :
  let run := ProcessSignature action_options healthy "{}" "octo/repo"
               "refs/heads/main" "ghs_0123" (start action_sys) in
  count is_publish (trace (fst run)) <= 1 /\
  (forall req res,
      In (EvClientDo req res) (trace (fst run)) ->
      Method req = "POST" /\
      Header req = [("Content-Type", "application/json")] /\
      Timeout req = Some (10 * Second)%Z).
Proof.
  intros run.
  apply (ProcessSignature_one_request action_options healthy (start action_sys)
           (fst run) (snd run) "{}" "octo/repo" "refs/heads/main" "ghs_0123"
           (trace (fst run))).
  - apply surjective_pairing.
  - reflexivity.
Defined.

(** The address of every request [ProcessSignature] sends is what [net/url]
    made of the base URL read from the environment (the empty string when
    the variable is not set), followed by [/projects/github.com/] and the
    repository name; [http.NewRequest] has accepted it. *)
Theorem ProcessSignature_endpoint_of_environment
    (options : Options) (ext : Externals) (w w' : World) (r : option error)
    (jsonPayload repoName repoRef accessToken : string) (evs : list event)
    (req : Request) (res : Response + error) :
  ProcessSignature options ext jsonPayload repoName repoRef accessToken w = (w', r) ->
  trace w' = (trace w ++ evs)%list ->
  In (EvClientDo req res) evs ->
  url_Parse_ext ext
    (Getenv (EnvInputInternalPublishBaseURL options) (env (sys w))
     ++ "/projects/github.com/" ++ repoName) = inl (URL req) /\
  NewRequest_ext ext "POST" (URL req) = None /\
  res = client_Do_ext ext req (sys w).
Proof.
  match goal with |- _ -> _ -> _ -> ?C => set (goal := C) end.
  publish_cases evs; intros Hin; in_trace; subst goal; simpl;
    repeat split; first [assumption | symmetry; assumption].
Qed.

Lemma ProcessSignature_endpoint_of_environment_witness :
  let run := ProcessSignature action_options healthy "{}" "octo/repo"
               "refs/heads/main" "ghs_0123" (start (mkSys ∅ ∅)) in
  let req := first_request (trace (fst run)) in
  url_Parse_ext healthy ("" ++ "/projects/github.com/" ++ "octo/repo")
  = inl (URL req) /\
  NewRequest_ext healthy "POST" (URL req) = None /\
  inl created = client_Do_ext healthy req (mkSys ∅ ∅).
Proof.
  intros run req.
  destruct (ProcessSignature_endpoint_of_environment action_options healthy
              (start (mkSys ∅ ∅)) (fst run) (snd run) "{}" "octo/repo"
              "refs/heads/main" "ghs_0123" (trace (fst run)) req (inl created)
              (surjective_pairing _) eq_refl) as (Hurl & Hnew & Hres).
  - vm_compute. find_event.
  - split; [exact Hurl | split; [exact Hnew | exact Hres]].
Defined.

(** When the transport fails, [ProcessSignature] returns its error, wrapped;
    when it answers with a status other than 201 and the body is read to its
    end, the error is a new one, with no cause to unwrap. *)
Theorem ProcessSignature_transport_failure
    (options : Options) (ext : Externals) (w w' : World) (r : option error)
    (jsonPayload repoName repoRef accessToken : string) (evs : list event)
    (req : Request) :
  ProcessSignature options ext jsonPayload repoName repoRef accessToken w = (w', r) ->
  trace w' = (trace w ++ evs)%list ->
  (forall e, In (EvClientDo req (inr e)) evs ->
             r = Some (Errorf_w "executing scorecard-api call" e) /\
             (r ≫= Unwrap) = Some e) /\
  (forall resp bodyBytes,
      In (EvClientDo req (inl resp)) evs ->
      StatusCode resp <> StatusCreated ->
      Body resp = (bodyBytes, None) ->
      (r ≫= Unwrap) = None).
Proof.
  publish_cases evs;
    repeat match goal with
           | H : (_ =? _)%Z = true |- _ => apply Z.eqb_eq in H
           | H : (_ =? _)%Z = false |- _ => apply Z.eqb_neq in H
           end;
    (split;
     [ intros e0 Hin; in_trace; auto
     | intros resp bodyBytes Hin Hstatus Hbody; in_trace;
       first [contradiction | congruence | reflexivity] ]).
Qed.

Lemma ProcessSignature_transport_failure_witness :
  let run := ProcessSignature action_options transport_fails "{}" "octo/repo"
               "refs/heads/main" "ghs_0123" (start action_sys) in
  snd run = Some (Errorf_w "executing scorecard-api call" connection_refused) /\
  (snd run ≫= Unwrap) = Some connection_refused.
Proof.
  intros run.
  eapply (proj1 (ProcessSignature_transport_failure action_options transport_fails
                   (start action_sys) (fst run) (snd run) "{}" "octo/repo"
                   "refs/heads/main" "ghs_0123" (trace (fst run)) _
                   (surjective_pairing _) eq_refl)).
  right. left. reflexivity.
Defined.

(** ** The request body, for any payload *)

Section Coerce.

Local Open Scope N_scope.

Lemma length_append (a b : string) :
  String.length (a ++ b) = (String.length a + String.length b)%nat.
Proof.
  induction a as [| c a IH]; [reflexivity |].
  rewrite append_cons. cbn [String.length]. rewrite IH. reflexivity.
Qed.

Lemma slice_to_from (n : nat) (s : string) : (slice_to n s ++ slice_from n s)%string = s.
Proof.
  revert s. induction n as [| n IH]; intros [| c s]; try reflexivity.
  cbn [slice_to slice_from]. rewrite append_cons, IH. reflexivity.
Qed.

Lemma length_slice_from (n : nat) (s : string) :
  String.length (slice_from n s) = (String.length s - n)%nat.
Proof.
  revert s. induction n as [| n IH]; intros [| c s]; try reflexivity.
  cbn [slice_from String.length]. rewrite IH. reflexivity.
Qed.

(** A rune takes at least one byte of a string that is not empty. *)
Lemma DecodeRune_size_pos (c : ascii) (t : string) :
  (1 <= snd (DecodeRuneInString (String c t)))%nat.
Proof.
  destruct (N.lt_ge_cases (N_of_ascii c) 0x80) as [Hlt | Hge].
  - rewrite DecodeRune_ascii by assumption. simpl. lia.
  - pose proof (DecodeRune_lead c t Hge) as Hlead.
    destruct (DecodeRuneInString (String c t)) as [r size]. simpl.
    destruct Hlead as
      [[_ ->]
      | [(c1 & t1 & _ & -> & _)
        | [(c1 & c2 & t2 & _ & -> & _)
          | (c1 & c2 & c3 & t3 & _ & -> & _)]]]; lia.
Qed.

Lemma coerce_loop_cons (fuel : nat) (c : ascii) (t : string) :
  coerce_loop (S fuel) (String c t) =
  let '(r, size) := DecodeRuneInString (String c t) in
  if (r =? RuneError) && (size =? 1)%nat
  then (replacement ++ coerce_loop fuel (slice_from 1 (String c t)))%string
  else (slice_to size (String c t)
        ++ coerce_loop fuel (slice_from size (String c t)))%string.
Proof. reflexivity. Qed.

(** On well-formed UTF-8 the coercion changes nothing. *)
Lemma coerce_loop_valid (fuel : nat) :
  forall s : string, (String.length s <= fuel)%nat ->
    ValidString_loop fuel s = true -> coerce_loop fuel s = s.
Proof.
  induction fuel as [| fuel IH]; intros s Hlen Hvalid.
  - destruct s; [reflexivity | simpl in Hlen; lia].
  - destruct s as [| c t]; [reflexivity |].
    rewrite coerce_loop_cons. rewrite ValidString_loop_cons in Hvalid.
    pose proof (DecodeRune_size_pos c t) as Hpos.
    destruct (DecodeRuneInString (String c t)) as [r size]. simpl in Hpos.
    destruct ((r =? RuneError) && (size =? 1)%nat); [discriminate |].
    rewrite IH; [apply slice_to_from | | assumption].
    rewrite length_slice_from. cbn [String.length] in *. lia.
Qed.

(** The coercion never shortens a string, and lengthens one that is not
    well-formed UTF-8. *)
Lemma coerce_loop_length (fuel : nat) :
  forall s : string, (String.length s <= fuel)%nat ->
    (String.length s <= String.length (coerce_loop fuel s))%nat /\
    (ValidString_loop fuel s = false ->
     (String.length s < String.length (coerce_loop fuel s))%nat).
Proof.
  induction fuel as [| fuel IH]; intros s Hlen.
  - destruct s; [simpl; split; [lia | discriminate] | simpl in Hlen; lia].
  - destruct s as [| c t]; [simpl; split; [lia | discriminate] |].
    rewrite coerce_loop_cons, ValidString_loop_cons.
    pose proof (DecodeRune_size_pos c t) as Hpos.
    destruct (DecodeRuneInString (String c t)) as [r size]. simpl in Hpos.
    destruct ((r =? RuneError) && (size =? 1)%nat).
    + cbn [slice_from]. rewrite length_append.
      change (String.length replacement) with 3%nat.
      cbn [String.length] in *.
      destruct (IH t ltac:(lia)) as [Hle _]. split; [lia | intros _; lia].
    + rewrite length_append.
      assert (Hrest : (String.length (slice_from size (String c t)) <= fuel)%nat).
      { rewrite length_slice_from. cbn [String.length] in *. lia. }
      destruct (IH _ Hrest) as [Hle Hlt].
      assert (Hsplit : String.length (String c t) =
                       (String.length (slice_to size (String c t)) +
                        String.length (slice_from size (String c t)))%nat)
        by (rewrite <- length_append, slice_to_from; reflexivity).
      rewrite Hsplit. split; [lia |].
      intros Hinvalid. specialize (Hlt Hinvalid). lia.
Qed.

(** The coercion keeps exactly the strings that are well-formed UTF-8. *)
Lemma coerce_id_iff_valid (s : string) : coerce s = s <-> ValidString s = true.
Proof.
  unfold coerce, ValidString. split.
  - intros Heq.
    destruct (ValidString_loop (String.length s) s) eqn:Hvalid; [reflexivity |].
    destruct (coerce_loop_length (String.length s) s (le_n _)) as [_ Hlt].
    specialize (Hlt Hvalid). rewrite Heq in Hlt. lia.
  - apply coerce_loop_valid. apply le_n.
Qed.

End Coerce.

Section ReadBack.

Local Open Scope N_scope.

(** Reading back what the loop of [appendString] wrote gives the coerced
    string, whatever the bytes written. *)
Lemma unquote_appendString_loop_coerce (fuel : nat) :
  forall s rest : string,
    (String.length s <= fuel)%nat ->
    unquote (appendString_loop fuel s ++ String dquote rest)
    = Some (coerce_loop fuel s, rest).
Proof.
  induction fuel as [| fuel IH]; intros s rest Hlen.
  - destruct s; [reflexivity | simpl in Hlen; lia].
  - destruct s as [| c t]; [reflexivity |].
    cbn [String.length] in Hlen.
    rewrite appendString_loop_cons, coerce_loop_cons.
    destruct (N_of_ascii c <? RuneSelf) eqn:Hascii.
    + apply N.ltb_lt in Hascii. unfold RuneSelf in Hascii.
      rewrite string_app_assoc, unquote_ascii by assumption.
      rewrite DecodeRune_ascii by assumption.
      replace (N_of_ascii c =? RuneError) with false
        by (symmetry; apply N.eqb_neq; unfold RuneError; lia).
      cbn [andb slice_from slice_to].
      rewrite (IH t rest) by lia. reflexivity.
    + apply N.ltb_ge in Hascii. unfold RuneSelf in Hascii.
      pose proof (DecodeRune_lead c t Hascii) as Hlead.
      destruct (DecodeRuneInString (String c t)) as [r size].
      destruct Hlead as
        [[-> ->]
        | [(c1 & t1 & -> & -> & H1 & Hr)
          | [(c1 & c2 & t2 & -> & -> & H1 & H2 & Hc & Hc1 & Hc2 & Hr)
            | (c1 & c2 & c3 & t3 & -> & -> & H1 & H2 & H3 & Hr)]]].
      * change ((RuneError =? RuneError) && (1 =? 1)%nat) with true. cbv iota.
        cbn [slice_from].
        rewrite string_app_assoc, unquote_replacement.
        rewrite (IH t rest) by lia. reflexivity.
      * replace (r =? RuneError) with false
          by (symmetry; apply N.eqb_neq; unfold RuneError; lia).
        replace (r =? 0x2028) with false by (symmetry; apply N.eqb_neq; lia).
        replace (r =? 0x2029) with false by (symmetry; apply N.eqb_neq; lia).
        cbn [andb orb slice_from slice_to]. rewrite !append_cons, !append_nil.
        rewrite (unquote_high c) by assumption.
        rewrite (unquote_high c1) by assumption.
        cbn [String.length] in Hlen.
        rewrite (IH t1 rest) by lia. reflexivity.
      * cbn [String.length] in Hlen.
        change (3 =? 1)%nat with false. rewrite andb_false_r.
        cbn [slice_from slice_to].
        destruct ((r =? 0x2028) || (r =? 0x2029)) eqn:Hsep.
        -- apply orb_true_iff in Hsep.
           assert (Hbytes : c = ascii_of_N 0xE2 /\ c1 = ascii_of_N 0x80 /\
                            (r = 0x2028 /\ c2 = ascii_of_N 0xA8 \/
                             r = 0x2029 /\ c2 = ascii_of_N 0xA9)).
           { unfold high in *.
             rewrite <- (ascii_N_embedding c), <- (ascii_N_embedding c1),
               <- (ascii_N_embedding c2).
             destruct Hsep as [Hsep | Hsep]; apply N.eqb_eq in Hsep;
               assert (N_of_ascii c = 0xE2) as -> by lia;
               assert (N_of_ascii c1 = 0x80) as -> by lia;
               [ assert (N_of_ascii c2 = 0xA8) as -> by lia
               | assert (N_of_ascii c2 = 0xA9) as -> by lia ];
               auto. }
           destruct Hbytes as (-> & -> & [[-> ->] | [-> ->]]).
           ++ rewrite !string_app_assoc, unquote_2028, (IH t2 rest) by lia.
              reflexivity.
           ++ rewrite !string_app_assoc, unquote_2029, (IH t2 rest) by lia.
              reflexivity.
        -- rewrite !append_cons, ?append_nil.
           rewrite (unquote_high c) by assumption.
           rewrite (unquote_high c1) by assumption.
           rewrite (unquote_high c2) by assumption.
           rewrite (IH t2 rest) by lia. reflexivity.
      * cbn [String.length] in Hlen.
        change (4 =? 1)%nat with false. rewrite andb_false_r.
        replace (r =? 0x2028) with false by (symmetry; apply N.eqb_neq; lia).
        replace (r =? 0x2029) with false by (symmetry; apply N.eqb_neq; lia).
        cbn [orb slice_from slice_to]. rewrite !append_cons, !append_nil.
        rewrite (unquote_high c) by assumption.
        rewrite (unquote_high c1) by assumption.
        rewrite (unquote_high c2) by assumption.
        rewrite (unquote_high c3) by assumption.
        rewrite (IH t3 rest) by lia. reflexivity.
Qed.

End ReadBack.

Lemma read_string_appendString_coerce (s rest : string) :
  read_string (appendString s ++ rest) = Some (coerce s, rest).
Proof.
  unfold appendString, coerce.
  rewrite append_cons, string_app_assoc, append_cons, append_nil.
  exact (unquote_appendString_loop_coerce (String.length s) s rest (le_n _)).
Qed.

Lemma skip_ws_here (c : ascii) (X : string) :
  is_ws c = false -> skip_ws (String c X) = String c X.
Proof. intros Hc. cbn [skip_ws]. rewrite Hc. reflexivity. Qed.

(** Three members written by the encoder read back as three members, names
    and values coerced. *)
Lemma read_members_three_coerce (fuel : nat) (k1 v1 k2 v2 k3 v3 tail : string) :
  read_members (S (S (S fuel)))
    (appendString k1 ++ ":" ++ appendString v1 ++ "," ++
     appendString k2 ++ ":" ++ appendString v2 ++ "," ++
     appendString k3 ++ ":" ++ appendString v3 ++ "}" ++ tail)
  = Some ([(coerce k1, coerce v1); (coerce k2, coerce v2); (coerce k3, coerce v3)],
          tail).
Proof.
  cbn [read_members].
  repeat (rewrite read_string_appendString_coerce;
          rewrite ?append_cons, ?append_nil;
          rewrite ?expect_here by reflexivity;
          rewrite ?skip_ws_here by reflexivity;
          cbv beta iota;
          change (Ascii.eqb "," "}") with false;
          change (Ascii.eqb "," ",") with true;
          change (Ascii.eqb "}" "}") with true;
          cbv beta iota).
  reflexivity.
Qed.

(** What [json.Marshal] writes for the struct reads back as the three
    members, each value coerced to UTF-8. *)
Lemma json_read_object_Marshal_coerce (v : resultsPayload) :
  exists body : string,
    json_Marshal v = inl body /\
    json_read_object body
    = Some [("result", coerce (Result v)); ("branch", coerce (Branch v));
            ("accessToken", coerce (AccessToken v))].
Proof.
  eexists. split; [reflexivity |].
  unfold json_read_object.
  rewrite append_cons, append_nil, expect_here by reflexivity.
  match goal with
  | |- context [skip_ws ?X] =>
      assert (Hhead : exists Y, X = String dquote Y)
        by (unfold appendString at 1; rewrite append_cons; eauto);
      destruct Hhead as [Y HY]
  end.
  rewrite HY at 1. cbn [skip_ws].
  change (is_ws dquote) with false. cbv iota.
  change (Ascii.eqb dquote "}") with false. cbv iota.
  destruct (length_appendString_app "result"
              (appendString (Result v)
               ++ "," ++ appendString "branch" ++ ":" ++ appendString (Branch v)
               ++ "," ++ appendString "accessToken" ++ ":"
               ++ appendString (AccessToken v) ++ "}")) as [n Hn].
  match type of Hn with
  | String.length ?Z = _ =>
      match goal with
      | |- context [read_members (String.length ?X) _] => change X with Z
      end
  end.
  rewrite Hn.
  pose proof (read_members_three_coerce n "result" (Result v) "branch" (Branch v)
                "accessToken" (AccessToken v) "") as Hread.
  match type of Hread with
  | read_members _ ?Z = _ =>
      match goal with
      | |- context [read_members _ ?X] => change X with Z
      end
  end.
  rewrite Hread. reflexivity.
Qed.

(** The body of every request [ProcessSignature] sends reads back as an
    object of exactly the three members [result], [branch] and [accessToken],
    in this order, whatever the payload, the ref and the token are; each value
    is the one passed in, with every byte that is not well-formed UTF-8
    replaced by U+FFFD. *)
Theorem ProcessSignature_body_reads_back
    (options : Options) (ext : Externals) (w w' : World) (r : option error)
    (jsonPayload repoName repoRef accessToken : string) (evs : list event)
    (req : Request) (res : Response + error) :
  ProcessSignature options ext jsonPayload repoName repoRef accessToken w = (w', r) ->
  trace w' = (trace w ++ evs)%list ->
  In (EvClientDo req res) evs ->
  json_read_object (ReqBody req)
  = Some [("result", coerce jsonPayload); ("branch", coerce repoRef);
          ("accessToken", coerce accessToken)].
Proof.
  intros Hrun Htrace Hin.
  destruct (json_read_object_Marshal_coerce
              (mkResultsPayload jsonPayload repoRef accessToken))
    as (body & Hbody & Hread).
  rewrite (ProcessSignature_sends_marshalled options ext w w' r jsonPayload repoName
             repoRef accessToken body evs req res Hbody Hrun Htrace Hin).
  exact Hread.
Qed.

Lemma ProcessSignature_body_reads_back_witness :
  let run := ProcessSignature action_options healthy not_utf8 "octo/repo"
               "refs/heads/main" "ghs_0123" (start action_sys) in
  json_read_object (ReqBody (first_request (trace (fst run))))
  = Some [("result", coerce not_utf8); ("branch", coerce "refs/heads/main");
          ("accessToken", coerce "ghs_0123")].
Proof.
  intros run.
  apply (ProcessSignature_body_reads_back action_options healthy (start action_sys)
           (fst run) (snd run) not_utf8 "octo/repo" "refs/heads/main" "ghs_0123"
           (trace (fst run)) (first_request (trace (fst run))) (inl created)).
  - apply surjective_pairing.
  - reflexivity.
  - vm_compute. find_event.
Defined.

(** The [result] member of a request body is the payload, byte for byte,
    exactly when the payload is well-formed UTF-8. *)
Theorem ProcessSignature_result_exact_iff_utf8
    (options : Options) (ext : Externals) (w w' : World) (r : option error)
    (jsonPayload repoName repoRef accessToken : string) (evs : list event)
    (req : Request) (res : Response + error) :
  ProcessSignature options ext jsonPayload repoName repoRef accessToken w = (w', r) ->
  trace w' = (trace w ++ evs)%list ->
  In (EvClientDo req res) evs ->
  (exists branch token,
      json_read_object (ReqBody req)
      = Some [("result", jsonPayload); ("branch", branch); ("accessToken", token)])
  <-> ValidString jsonPayload = true.
Proof.
  intros Hrun Htrace Hin.
  destruct (json_read_object_Marshal_coerce
              (mkResultsPayload jsonPayload repoRef accessToken))
    as (body & Hbody & Hread).
  rewrite (ProcessSignature_sends_marshalled options ext w w' r jsonPayload repoName
             repoRef accessToken body evs req res Hbody Hrun Htrace Hin).
  rewrite Hread. simpl. split.
  - intros (branch & token & [= Hresult _ _]).
    apply coerce_id_iff_valid. exact Hresult.
  - intros Hvalid. apply coerce_id_iff_valid in Hvalid. rewrite Hvalid. eauto.
Qed.

Lemma ProcessSignature_result_exact_iff_utf8_witness :
  let run := ProcessSignature action_options healthy "{}" "octo/repo"
               "refs/heads/main" "ghs_0123" (start action_sys) in
  (exists branch token,
      json_read_object (ReqBody (first_request (trace (fst run))))
      = Some [("result", "{}"); ("branch", branch); ("accessToken", token)])
  <-> ValidString "{}" = true.
Proof.
  intros run.
  apply (ProcessSignature_result_exact_iff_utf8 action_options healthy
           (start action_sys) (fst run) (snd run) "{}" "octo/repo" "refs/heads/main"
           "ghs_0123" (trace (fst run)) (first_request (trace (fst run)))
           (inl created)).
  - apply surjective_pairing.
  - reflexivity.
  - vm_compute. find_event.
Defined.

(** ** The driver, phase by phase *)

(** Runs [main] from an empty trace through all the cases of its
    collaborators. *)
Ltac main_cases :=
  unfold main, GetJSONScorecardResults, GetJSONScorecardResults_body,
    SignScorecardResult, ProcessSignature, http_NewRequest, start;
  step; externals; intros [= <- <-]; simpl.

(** When the primary scan fails, the driver does nothing else: it reads no
    variable, runs no second scan, signs and publishes nothing, and ends in
    [log.Fatalf] with the scan's error. *)
Theorem main_primary_scan_failure
    (options : Options) (ext : Externals) (s s1 : Sys) (e : error) :
  cli_Execute_ext ext s = (s1, Some e) ->
  main options ext (start s) =
  (mkWorld s1 [EvCliExecute (Some e)],
   Fatal ("error during command execution: " ++ Error e)).
Proof.
  intros Hcli. unfold main, start. step. rewrite Hcli. reflexivity.
Qed.

Lemma main_primary_scan_failure_witness :
  main action_options cli_fails (start action_sys) =
  (mkWorld action_sys [EvCliExecute (Some scan_error)],
   Fatal ("error during command execution: " ++ Error scan_error)).
Proof.
  apply (main_primary_scan_failure action_options cli_fails action_sys action_sys
           scan_error).
  reflexivity.
Defined.

(** In every run of the driver the phases come in order and at most once:
    the primary scan is run once; the results file is read only after a second
    scan that succeeded, signing happens only after the results were read,
    publishing only after [results.json] was signed; there is at most one
    second scan, one signing call (of [results.json]) and one request. *)
Theorem main_phases_in_order
    (options : Options) (ext : Externals) (s : Sys) :
  let t := trace (fst (main options ext (start s))) in
  count is_primary_scan t = 1 /\
  count is_secondary_scan t <= 1 /\
  count is_sign t <= 1 /\
  count is_publish t <= 1 /\
  precedes is_primary_scan is_secondary_scan t = true /\
  precedes is_rescan_ok is_read_file t = true /\
  precedes is_read_ok is_sign t = true /\
  precedes is_signed is_publish t = true /\
  (forall file r, In (EvSignBlobCmd file r) t -> file = "results.json").
Proof.
  intros t. subst t.
  destruct (main options ext (start s)) as [w out] eqn:Hrun. revert Hrun.
  main_cases; unfold count, precedes; simpl;
    repeat (split; [first [reflexivity | lia] |]);
    intros file0 res0 Hin; in_trace; reflexivity.
Qed.

(** Apart from the publish flag and the two results settings, the driver
    reads no variable before [results.json] has been signed: the access
    token, the repository name and the ref are not touched when an earlier
    phase fails. *)
Theorem main_reads_token_after_signing
    (options : Options) (ext : Externals) (s : Sys) (key : string) :
  Forall (fun earlier => earlier <> key)
    [EnvInputPublishResults options; EnvInputResultsFile options;
     EnvInputResultsFormat options] ->
  precedes is_signed (reads key) (trace (fst (main options ext (start s)))) = true.
Proof.
  intros Hearlier.
  repeat match goal with
         | H : Forall _ (_ :: _) |- _ =>
             let Hne := fresh "Hne" in
             apply Forall_cons in H; destruct H as [Hne H];
             apply String_eqb_false in Hne
         end.
  destruct (main options ext (start s)) as [w out] eqn:Hrun. revert Hrun.
  main_cases; unfold precedes; simpl; rewrite ?Hne, ?Hne0, ?Hne1; simpl;
    repeat match goal with
           | |- context [String.eqb ?a ?b] => destruct (String.eqb a b); simpl
           end; reflexivity.
Qed.

Lemma main_reads_token_after_signing_witness :
  precedes is_signed (reads "INPUT_REPO_TOKEN")
    (trace (fst (main action_options healthy (start action_sys)))) = true.
Proof.
  apply (main_reads_token_after_signing action_options healthy action_sys
           "INPUT_REPO_TOKEN").
  repeat constructor; discriminate.
Defined.

(** The driver ends normally exactly when the primary scan succeeded and
    either no second scan was run (publishing not enabled) or a request was
    answered with status 201. *)
Theorem main_done_iff
    (options : Options) (ext : Externals) (s : Sys) (w : World) (out : exit) :
  main options ext (start s) = (w, out) ->
  out = Done <->
  In (EvCliExecute None) (trace w) /\
  (count is_secondary_scan (trace w) = 0 \/
   exists req resp,
     In (EvClientDo req (inl resp)) (trace w) /\ StatusCode resp = StatusCreated).
Proof.
  main_cases;
    repeat match goal with
           | H : (_ =? _)%Z = true |- _ => apply Z.eqb_eq in H
           | H : (_ =? _)%Z = false |- _ => apply Z.eqb_neq in H
           end;
    unfold count; simpl;
    (split;
     [ intros Hout; try discriminate Hout;
       (split; [tauto |]);
       first [ left; reflexivity
             | right; eexists _, _; split; [find_event | assumption] ]
     | intros [Hcli [Hnone | (req & resp & Hin & Hstatus)]];
       try discriminate Hnone; in_trace;
       first [reflexivity | contradiction] ]).
Qed.

Lemma main_done_iff_witness :
  let run := main action_options healthy (start action_sys) in
  snd run = Done <->
  In (EvCliExecute None) (trace (fst run)) /\
  (count is_secondary_scan (trace (fst run)) = 0 \/
   exists req resp,
     In (EvClientDo req (inl resp)) (trace (fst run)) /\
     StatusCode resp = StatusCreated).
Proof.
  intros run.
  apply (main_done_iff action_options healthy action_sys (fst run) (snd run)).
  apply surjective_pairing.
Defined.

(** What the driver publishes is what it read: the body of a request is the
    encoding of the content of the results file read and of the ref and the
    token read from the environment, and its address is made of the base URL
    and the repository name read from the environment. *)
Theorem main_publishes_what_it_read
    (options : Options) (ext : Externals) (s : Sys) (w : World) (out : exit)
    (req : Request) (res : Response + error) :
  main options ext (start s) = (w, out) ->
  In (EvClientDo req res) (trace w) ->
  exists path payload repo ref token base : string,
    In (EvReadFile path (inl payload)) (trace w) /\
    In (EvGetenv (EnvGithubRepository options) repo) (trace w) /\
    In (EvGetenv (EnvGithubRef options) ref) (trace w) /\
    In (EvGetenv (EnvInputRepoToken options) token) (trace w) /\
    In (EvGetenv (EnvInputInternalPublishBaseURL options) base) (trace w) /\
    json_Marshal (mkResultsPayload payload ref token) = inl (ReqBody req) /\
    url_Parse_ext ext (base ++ "/projects/github.com/" ++ repo) = inl (URL req).
Proof.
  main_cases; intros Hin; in_trace;
    eexists _, _, _, _, _, _;
    (split; [find_event |]); (split; [find_event |]); (split; [find_event |]);
    (split; [find_event |]); (split; [find_event |]);
    (split; [reflexivity | eassumption]).
Qed.

Lemma main_publishes_what_it_read_witness :
  let run := main action_options healthy (start action_sys) in
  let req := first_request (trace (fst run)) in
  exists path payload repo ref token base : string,
    In (EvReadFile path (inl payload)) (trace (fst run)) /\
    In (EvGetenv "GITHUB_REPOSITORY" repo) (trace (fst run)) /\
    In (EvGetenv "GITHUB_REF" ref) (trace (fst run)) /\
    In (EvGetenv "INPUT_REPO_TOKEN" token) (trace (fst run)) /\
    In (EvGetenv "INPUT_INTERNAL_PUBLISH_BASE_URL" base) (trace (fst run)) /\
    json_Marshal (mkResultsPayload payload ref token) = inl (ReqBody req) /\
    url_Parse_ext healthy (base ++ "/projects/github.com/" ++ repo)
    = inl (URL req).
Proof.
  intros run req.
  apply (main_publishes_what_it_read action_options healthy action_sys
           (fst run) (snd run) req (inl created)).
  - apply surjective_pairing.
  - vm_compute. find_event.
Defined.

(** A fatal exit names the phase that failed: the line begins with the
    context of the primary scan (and then nothing else was done), of the
    second scan (nothing was signed), of the signing (a signing call was made,
    [results.json] was not signed, nothing was sent) or of the publishing
    ([results.json] was signed). *)
Theorem main_fatal_line
    (options : Options) (ext : Externals) (s : Sys) (w : World) (line : string) :
  main options ext (start s) = (w, Fatal line) ->
  exists msg : string,
    (line = "error during command execution: " ++ msg /\
     count is_secondary_scan (trace w) = 0 /\ length (trace w) = 1) \/
    (line = "error generating json scorecard results: " ++ msg /\
     count is_secondary_scan (trace w) = 1 /\ count is_sign (trace w) = 0) \/
    (line = "error signing scorecard json results: " ++ msg /\
     count is_sign (trace w) = 1 /\ count is_signed (trace w) = 0 /\
     count is_publish (trace w) = 0) \/
    (line = "error processing signature: " ++ msg /\
     count is_signed (trace w) = 1).
Proof.
  main_cases; eexists; unfold count; simpl;
    first [ left; split; [reflexivity | split; reflexivity]
          | right; left; split; [reflexivity | split; reflexivity]
          | right; right; left; split; [reflexivity | repeat split; reflexivity]
          | right; right; right; split; reflexivity ].
Qed.

Lemma main_fatal_line_witness :
  exists msg : string,
    ("error generating json scorecard results: error during command execution: repo unreachable"
     = "error during command execution: " ++ msg /\
     count is_secondary_scan
       (trace (fst (main action_options rescan_fails (start action_sys)))) = 0 /\
     length (trace (fst (main action_options rescan_fails (start action_sys)))) = 1) \/
    ("error generating json scorecard results: error during command execution: repo unreachable"
     = "error generating json scorecard results: " ++ msg /\
     count is_secondary_scan
       (trace (fst (main action_options rescan_fails (start action_sys)))) = 1 /\
     count is_sign
       (trace (fst (main action_options rescan_fails (start action_sys)))) = 0) \/
    ("error generating json scorecard results: error during command execution: repo unreachable"
     = "error signing scorecard json results: " ++ msg /\
     count is_sign
       (trace (fst (main action_options rescan_fails (start action_sys)))) = 1 /\
     count is_signed
       (trace (fst (main action_options rescan_fails (start action_sys)))) = 0 /\
     count is_publish
       (trace (fst (main action_options rescan_fails (start action_sys)))) = 0) \/
    ("error generating json scorecard results: error during command execution: repo unreachable"
     = "error processing signature: " ++ msg /\
     count is_signed
       (trace (fst (main action_options rescan_fails (start action_sys)))) = 1).
Proof.
  apply (main_fatal_line action_options rescan_fails action_sys
           (fst (main action_options rescan_fails (start action_sys)))).
  reflexivity.
Defined.
